(** * streamlit-video-state-player: the client-side playback tracker and the
      host-side source preparation, embedded from
      [src/streamlit_video_state_player/video_player.py].

    The JavaScript block [_JS] is one exported function.  Every call of it
    creates fresh closure variables ([detectedFps], [lastUpdateTime],
    [lastSeekTo], ...), looks the [<video>] element up under the
    [parentElement] it is handed, applies the host's [data], registers event
    listeners and emits one initial snapshot.  Afterwards the browser drives
    the listeners.  The embedding follows that shape:

    - the DOM ([Page], [HTMLVideoElement]) is a record handed to [component];
    - the closure variables and the registered callbacks are the record
      [Instance], threaded through every handler;
    - what a handler does to the outside (a [setStateValue] call, a
      [console.log], an assignment to [video.currentTime]) is returned as a
      list of [Output]s next to the new state.

    Numbers.  [Date.now()] is an integer count of milliseconds: [Z].  Every
    other number of the script (the element's [currentTime] and [duration],
    the frame-callback timestamps, the frame count, the detected rate, the
    frame number) is a JavaScript Number, an IEEE-754 binary64 value: the
    primitive [float], with its own product, difference, quotient and
    comparisons, [NaN], the infinities and the two zeros. *)

From Stdlib Require Import ZArith Floats Uint63 List String Bool Lia Sorted.
Import ListNotations.

Set Implicit Arguments.
Open Scope Z_scope.

(** ** JavaScript values used by the component *)

Module JS.

(** A field of [data] that holds a number, [null], or is missing. *)
Inductive jsval : Type :=
| JNull
| JUndefined
| JNum (x : float).

(** [a !== b] on such values; on numbers it is the IEEE inequality. *)
Definition strict_neq (a b : jsval) : bool :=
  match a, b with
  | JNull, JNull => false
  | JUndefined, JUndefined => false
  | JNum x, JNum y => negb (x =? y)%float
  | _, _ => true
  end.

(** The falsy numbers: [0], [-0] and [NaN]. *)
Definition falsy (x : float) : bool := (x =? 0)%float || is_nan x.

(** [x || 0]. *)
Definition or_zero (x : float) : float := if falsy x then 0%float else x.

(** The Number of an integer of magnitude up to [2^53]. *)
Definition of_Z (n : Z) : float :=
  match n with
  | Z0 => 0%float
  | Zpos _ => of_uint63 (Uint63.of_Z n)
  | Zneg _ => (- of_uint63 (Uint63.of_Z (- n)))%float
  end.

(** [Math.floor]: a finite [x] is [+-m * 2^e]; with [e >= 0] it is an
    integer already, otherwise the mantissa is shifted down (towards minus
    infinity).  Zeros, infinities and [NaN] are returned as they are. *)
Definition Math_floor (x : float) : float :=
  match Prim2SF x with
  | S754_finite s m e =>
      if 0 <=? e then x
      else of_Z (Z.shiftr (cond_Zopp s (Zpos m)) (- e))
  | _ => x
  end.

(** [Math.round]: the integer nearest to [x], ties going up: the floor of
    [x + 1/2] computed exactly on the mantissa; a result of zero keeps the
    sign of [x]. *)
Definition Math_round (x : float) : float :=
  match Prim2SF x with
  | S754_finite s m e =>
      if 0 <=? e then x
      else
        let n :=
          Z.shiftr (2 * cond_Zopp s (Zpos m) + Z.shiftl 1 (- e)) (1 - e) in
        if (n =? 0) && s then (-0)%float else of_Z n
  | _ => x
  end.

(** [x >= 0]; false of [NaN]. *)
Definition nonneg (x : float) : Prop := (0 <=? x)%float = true.

(** A finite Number that is not negative. *)
Definition finite_nonneg (x : float) : Prop :=
  nonneg x /\ is_infinity x = false.

(** The same two classes, read off the sign, mantissa and exponent: a zero,
    a positive finite number or [+Infinity]; and the same without
    [+Infinity]. *)
Definition SFnonneg (x : spec_float) : bool :=
  match x with
  | S754_zero _ => true
  | S754_finite s _ _ => negb s
  | S754_infinity s => negb s
  | S754_nan => false
  end.

Definition SFfinite_nonneg (x : spec_float) : bool :=
  match x with
  | S754_zero _ => true
  | S754_finite s _ _ => negb s
  | _ => false
  end.

End JS.

(** ** The exported component function of [_JS] *)

Module Player.
Import JS.

(** *** The page the component is mounted on *)

Record HTMLVideoElement : Type := mkVideo {
  src : string;
  autoplay : bool;
  loop : bool;
  currentTime : float;       (* seconds *)
  duration : float;          (* seconds; NaN until metadata is loaded *)
  paused : bool;
  ended : bool;
  readyState : Z;            (* 0 = HAVE_NOTHING, 1 = HAVE_METADATA, ... *)
  style_maxHeight : option Z (* pixels *)
}.

(** The text of the overlay, before formatting:
    [toFixed(2) + 's | Frame ' + frame + ' | ' + fps + ' fps']. *)
Record Overlay : Type := mkOverlay {
  overlay_time : float;
  overlay_frame : float;
  overlay_fps : float
}.

(** What [parentElement.querySelector] finds: [#video], [#container],
    [#info]. *)
Record Page : Type := mkPage {
  video : HTMLVideoElement;
  container_style_height : option Z;
  info_textContent : option Overlay
}.

(** [component.data], as [video_player] builds it. *)
Record Data : Type := mkData {
  data_video_src : string;
  data_seek_to : jsval;
  data_height : Z;
  data_autoplay : bool;
  data_loop : bool
}.

(** The [state] object of [updateState]. *)
Record PlaybackState : Type := mkState {
  current_time : float;
  frame_number : float;
  state_duration : float;
  fps : float;
  is_playing : bool
}.

Inductive LogMsg : Type :=
| NotSupported              (* 'requestVideoFrameCallback not supported, ...' *)
| DetectedFPS (rate : float).   (* 'Detected FPS: ' + detectedFps *)

(** Effects on the outside world, in the order they happen. *)
Inductive Output : Type :=
| SetStateValue (key : string) (s : PlaybackState)
| ConsoleLog (m : LogMsg)
| AssignCurrentTime (t : float).  (* video.currentTime = t *)

(** *** Closure variables and registered callbacks of one call *)

Record Instance : Type := mkInstance {
  dom : Page;
  (* let-bound variables of the exported function *)
  detectedFps : float;
  fpsDetectionComplete : bool;
  lastUpdateTime : Z;
  lastSeekTo : jsval;
  (* let-bound variables of detectFps *)
  frameCount : float;
  startTime : option float;
  (* callbacks currently registered *)
  seekOnMetadata : option float; (* 'loadedmetadata', once: the deferred seek *)
  startDetection : bool;     (* 'play', once *)
  countFrameRequested : bool;(* video.requestVideoFrameCallback(countFrame) *)
  tickRequested : nat        (* requestAnimationFrame(tick), one per loop *)
}.

Definition UPDATE_THROTTLE_MS : Z := 250.
Definition SAMPLE_DURATION_MS : float := 1000.

(** Field updates. *)
Definition with_video (f : HTMLVideoElement -> HTMLVideoElement) (p : Page) : Page :=
  mkPage (f (video p)) (container_style_height p) (info_textContent p).

Definition with_dom (f : Page -> Page) (i : Instance) : Instance :=
  mkInstance (f (dom i)) (detectedFps i) (fpsDetectionComplete i)
    (lastUpdateTime i) (lastSeekTo i) (frameCount i) (startTime i)
    (seekOnMetadata i) (startDetection i) (countFrameRequested i)
    (tickRequested i).

Definition set_src (s : string) (v : HTMLVideoElement) :=
  mkVideo s (autoplay v) (loop v) (currentTime v) (duration v) (paused v)
    (ended v) (readyState v) (style_maxHeight v).
Definition set_autoplay (b : bool) (v : HTMLVideoElement) :=
  mkVideo (src v) b (loop v) (currentTime v) (duration v) (paused v)
    (ended v) (readyState v) (style_maxHeight v).
Definition set_loop (b : bool) (v : HTMLVideoElement) :=
  mkVideo (src v) (autoplay v) b (currentTime v) (duration v) (paused v)
    (ended v) (readyState v) (style_maxHeight v).
Definition set_currentTime (t : float) (v : HTMLVideoElement) :=
  mkVideo (src v) (autoplay v) (loop v) t (duration v) (paused v)
    (ended v) (readyState v) (style_maxHeight v).
Definition set_maxHeight (h : Z) (v : HTMLVideoElement) :=
  mkVideo (src v) (autoplay v) (loop v) (currentTime v) (duration v)
    (paused v) (ended v) (readyState v) (Some h).
Definition set_container_height (h : Z) (p : Page) :=
  mkPage (video p) (Some h) (info_textContent p).
Definition set_info (o : Overlay) (p : Page) :=
  mkPage (video p) (container_style_height p) (Some o).

Definition set_detectedFps (r : float) (i : Instance) :=
  mkInstance (dom i) r (fpsDetectionComplete i) (lastUpdateTime i)
    (lastSeekTo i) (frameCount i) (startTime i) (seekOnMetadata i)
    (startDetection i) (countFrameRequested i) (tickRequested i).
Definition set_fpsDetectionComplete (b : bool) (i : Instance) :=
  mkInstance (dom i) (detectedFps i) b (lastUpdateTime i)
    (lastSeekTo i) (frameCount i) (startTime i) (seekOnMetadata i)
    (startDetection i) (countFrameRequested i) (tickRequested i).
Definition set_lastUpdateTime (t : Z) (i : Instance) :=
  mkInstance (dom i) (detectedFps i) (fpsDetectionComplete i) t
    (lastSeekTo i) (frameCount i) (startTime i) (seekOnMetadata i)
    (startDetection i) (countFrameRequested i) (tickRequested i).
Definition set_lastSeekTo (x : jsval) (i : Instance) :=
  mkInstance (dom i) (detectedFps i) (fpsDetectionComplete i)
    (lastUpdateTime i) x (frameCount i) (startTime i) (seekOnMetadata i)
    (startDetection i) (countFrameRequested i) (tickRequested i).
Definition set_frameCount (n : float) (i : Instance) :=
  mkInstance (dom i) (detectedFps i) (fpsDetectionComplete i)
    (lastUpdateTime i) (lastSeekTo i) n (startTime i) (seekOnMetadata i)
    (startDetection i) (countFrameRequested i) (tickRequested i).
Definition set_startTime (t : option float) (i : Instance) :=
  mkInstance (dom i) (detectedFps i) (fpsDetectionComplete i)
    (lastUpdateTime i) (lastSeekTo i) (frameCount i) t (seekOnMetadata i)
    (startDetection i) (countFrameRequested i) (tickRequested i).
Definition set_seekOnMetadata (t : option float) (i : Instance) :=
  mkInstance (dom i) (detectedFps i) (fpsDetectionComplete i)
    (lastUpdateTime i) (lastSeekTo i) (frameCount i) (startTime i) t
    (startDetection i) (countFrameRequested i) (tickRequested i).
Definition set_startDetection (b : bool) (i : Instance) :=
  mkInstance (dom i) (detectedFps i) (fpsDetectionComplete i)
    (lastUpdateTime i) (lastSeekTo i) (frameCount i) (startTime i)
    (seekOnMetadata i) b (countFrameRequested i) (tickRequested i).
Definition set_countFrameRequested (b : bool) (i : Instance) :=
  mkInstance (dom i) (detectedFps i) (fpsDetectionComplete i)
    (lastUpdateTime i) (lastSeekTo i) (frameCount i) (startTime i)
    (seekOnMetadata i) (startDetection i) b (tickRequested i).
Definition set_tickRequested (n : nat) (i : Instance) :=
  mkInstance (dom i) (detectedFps i) (fpsDetectionComplete i)
    (lastUpdateTime i) (lastSeekTo i) (frameCount i) (startTime i)
    (seekOnMetadata i) (startDetection i) (countFrameRequested i) n.

(** *** Handlers: state in, state and effects out *)

Definition Handler : Type := Instance -> Instance * list Output.

Definition skip : Handler := fun i => (i, []).
Definition modify (f : Instance -> Instance) : Handler := fun i => (f i, []).
Definition emit (o : Output) : Handler := fun i => (i, [o]).
Definition andThen (f g : Handler) : Handler :=
  fun i => let (i1, o1) := f i in
           let (i2, o2) := g i1 in
           (i2, o1 ++ o2).

Declare Scope handler_scope.
Delimit Scope handler_scope with handler.
Notation "f ;; g" := (andThen f g) (at level 61, right associativity) : handler_scope.

(** [getCurrentFrame]: [Math.floor(video.currentTime * detectedFps)]. *)
Definition getCurrentFrame (i : Instance) : float :=
  Math_floor (currentTime (video (dom i)) * detectedFps i)%float.

(** The object literal [state] of [updateState]. *)
Definition state_of (i : Instance) : PlaybackState :=
  let v := video (dom i) in
  mkState (or_zero (currentTime v))
          (getCurrentFrame i)
          (or_zero (duration v))
          (detectedFps i)
          (negb (paused v) && negb (ended v)).

(** [updateState(force)], with [now] the value [Date.now()] returns. *)
Definition updateState (force : bool) (now : Z) : Handler :=
  fun i =>
    if negb force && (now - lastUpdateTime i <? UPDATE_THROTTLE_MS) then
      (i, [])
    else
      let i1 := set_lastUpdateTime now i in
      let state := state_of i1 in
      let i2 :=
        with_dom (set_info (mkOverlay (current_time state)
                                      (frame_number state)
                                      (detectedFps i1))) i1 in
      (i2, [SetStateValue "state" state]).

Local Open Scope handler_scope.

(** *** The configuration block: [if (data) { ... }] *)

(** Source, height, autoplay and loop.  Assigning [video.src] makes the
    browser start loading the new resource; only the attribute itself is
    recorded here. *)
Definition applyFlags (d : Data) (p : Page) : Page :=
  let p1 :=
    if negb (String.eqb (data_video_src d) "")
       && negb (String.eqb (src (video p)) (data_video_src d))
    then with_video (set_src (data_video_src d)) p
    else p in
  let p2 :=
    if negb (data_height d =? 0)
    then with_video (set_maxHeight (data_height d))
           (set_container_height (data_height d) p1)
    else p1 in
  let p3 := if data_autoplay d then with_video (set_autoplay true) p2 else p2 in
  let p4 := if data_loop d then with_video (set_loop true) p3 else p3 in
  p4.

(** The guard of the seek command:
    [data.seek_to !== null && data.seek_to !== undefined
     && data.seek_to !== lastSeekTo]. *)
Definition seekAccepted (seek_to : jsval) (i : Instance) : bool :=
  strict_neq seek_to JNull && strict_neq seek_to JUndefined
  && strict_neq seek_to (lastSeekTo i).

(** "Handle seek command from Python". *)
Definition handleSeek (seek_to : jsval) : Handler :=
  fun i =>
    if seekAccepted seek_to i then
      match seek_to with
      | JNum t =>
          let i1 := set_lastSeekTo seek_to i in
          if 1 <=? readyState (video (dom i1)) then
            (with_dom (with_video (set_currentTime t)) i1,
             [AssignCurrentTime t])
          else
            (set_seekOnMetadata (Some t) i1, [])
      | _ => (i, [])   (* excluded by the guard *)
      end
    else (i, []).

Definition applyConfiguration (data : option Data) : Handler :=
  match data with
  | None => skip
  | Some d => modify (with_dom (applyFlags d)) ;; handleSeek (data_seek_to d)
  end.

(** *** FPS detection *)

(** [detectFps()]; [supported] is
    ['requestVideoFrameCallback' in HTMLVideoElement.prototype]. *)
Definition detectFps (supported : bool) : Handler :=
  if supported then
    modify (fun i => set_startDetection true
                       (set_startTime None (set_frameCount 0%float i)))
  else
    emit (ConsoleLog NotSupported).

(** [countFrame(now, metadata)]; [date_now] is what [Date.now()] returns
    inside the forced [updateState]. *)
Definition countFrame (now : float) (date_now : Z) : Handler :=
  fun i =>
    let i1 :=
      match startTime i with
      | None => set_frameCount 0%float (set_startTime (Some now) i)
      | Some _ => i
      end in
    let i2 := set_frameCount (frameCount i1 + 1)%float i1 in
    let start := match startTime i2 with Some s => s | None => now end in
    if (SAMPLE_DURATION_MS <=? now - start)%float then
      let rate :=
        Math_round (frameCount i2 / ((now - start) / 1000))%float in
      let i3 := set_fpsDetectionComplete true (set_detectedFps rate i2) in
      (emit (ConsoleLog (DetectedFPS rate)) ;; updateState true date_now) i3
    else
      (set_countFrameRequested true i2, []).

(** The once-only ['play'] listener [startDetection]. *)
Definition onFirstPlay : Handler :=
  fun i =>
    if startDetection i then
      let i1 := set_startDetection false i in
      if negb (fpsDetectionComplete i1)
      then (set_countFrameRequested true i1, [])
      else (i1, [])
    else (i, []).

(** *** Continuous updates *)

(** [startPlaybackUpdates()]: one more [tick] waits for the next frame. *)
Definition startPlaybackUpdates : Handler :=
  modify (fun i => set_tickRequested (S (tickRequested i)) i).

(** One run of [tick]. *)
Definition tick (date_now : Z) : Handler :=
  fun i =>
    let v := video (dom i) in
    if negb (paused v) && negb (ended v) then
      (updateState false date_now ;;
       modify (fun i => set_tickRequested (S (tickRequested i)) i)) i
    else (i, []).

(** *** Events *)

(** What the element shows when an event is delivered. *)
Record Readings : Type := mkReadings {
  now_currentTime : float;
  now_duration : float;
  now_paused : bool;
  now_ended : bool;
  now_readyState : Z
}.

Inductive EventKind : Type :=
| LoadedMetadata
| Play
| Pause
| Seeked
| Ended
| TimeUpdate
| AnimationFrame          (* a requested [tick] is run *)
| VideoFrame (now : float).  (* a requested [countFrame] is run *)

Record Event : Type := mkEvent {
  kind : EventKind;
  date_now : Z;           (* the wall clock, [Date.now()] *)
  element : Readings
}.

Definition observe (r : Readings) (v : HTMLVideoElement) : HTMLVideoElement :=
  mkVideo (src v) (autoplay v) (loop v) (now_currentTime r) (now_duration r)
    (now_paused r) (now_ended r) (now_readyState r) (style_maxHeight v).

(** The deferred seek, a once-only ['loadedmetadata'] listener. *)
Definition deferredSeek : Handler :=
  fun i =>
    match seekOnMetadata i with
    | Some t =>
        (with_dom (with_video (set_currentTime t)) (set_seekOnMetadata None i),
         [AssignCurrentTime t])
    | None => (i, [])
    end.

(** Listeners run in the order they were registered: the deferred seek is
    added in the configuration block, the six tracker listeners after it,
    [startDetection] last (inside [detectFps()]). *)
Definition listeners (k : EventKind) (now : Z) : Handler :=
  match k with
  | LoadedMetadata => deferredSeek ;; updateState true now
  | Play => startPlaybackUpdates ;; updateState true now ;; onFirstPlay
  | Pause => updateState true now
  | Seeked => updateState true now
  | Ended => updateState true now
  | TimeUpdate => updateState false now
  | AnimationFrame =>
      fun i =>
        match tickRequested i with
        | O => (i, [])
        | S n => tick now (set_tickRequested n i)
        end
  | VideoFrame t =>
      fun i =>
        if countFrameRequested i
        then countFrame t now (set_countFrameRequested false i)
        else (i, [])
  end.

Definition dispatch (e : Event) : Handler :=
  modify (with_dom (with_video (observe (element e))))
  ;; listeners (kind e) (date_now e).

(** *** The exported function *)

Definition fresh (p : Page) : Instance :=
  mkInstance p 30%float false 0 JNull 0%float None None false false 0.

(** [export default function(component)]: [supported] is the capability
    test of [detectFps], [now] the clock at the initial [updateState]. *)
Definition component (supported : bool) (data : option Data) (now : Z)
  (parentElement : Page) : Instance * list Output :=
  (applyConfiguration data ;; detectFps supported ;; updateState true now)
    (fresh parentElement).

(** *** Runs *)

(** The instance after a sequence of events, and everything it did. *)
Fixpoint run (i : Instance) (evs : list Event) : Instance * list Output :=
  match evs with
  | [] => (i, [])
  | e :: rest =>
      let (i1, o1) := dispatch e i in
      let (i2, o2) := run i1 rest in
      (i2, o1 ++ o2)
  end.

Definition exec (i : Instance) (evs : list Event) : Instance := fst (run i evs).
Definition outputs (i : Instance) (evs : list Event) : list Output := snd (run i evs).

(** The snapshots among some outputs. *)
Fixpoint snapshots (os : list Output) : list PlaybackState :=
  match os with
  | [] => []
  | SetStateValue _ s :: rest => s :: snapshots rest
  | _ :: rest => snapshots rest
  end.

End Player.

(** ** The host side: [_prepare_video_source] and [video_player] *)

Module Host.
Import JS.
Local Open Scope string_scope.

(** The [source] argument, by its run-time type. *)
Inductive Source : Type :=
| Bytes (content : list Byte.byte)
| PathObj (str : string)          (* a [Path]; [str] is [str(source)] *)
| Str (s : string)
| Other (type_name : string).     (* any other type; [type(source)] *)

Inductive Exception : Type :=
| FileNotFoundError (msg : string)
| TypeError (msg : string)
| OSError.                        (* [open] on something that is no readable file *)

Inductive result (A : Type) : Type :=
| Return (a : A)
| Raise (e : Exception).
Arguments Return {A} a.
Arguments Raise {A} e.

(** What a path names on disk. *)
Inductive Entry : Type :=
| RegularFile (content : list Byte.byte)
| NotReadable.                    (* a directory, a file without permission *)

(** Python values a component result is made of. *)
#[warnings="-register-all"]
Inductive PyVal : Type :=
| VNone
| VFloat (x : float)
| VInt (z : Z)
| VBool (b : bool)
| VDict (items : list (string * PyVal))
| VObject (attrs : list (string * PyVal)).

(** The dataclass [VideoState]; Python does not check the field types. *)
Record VideoState : Type := mkVideoState {
  current_time : PyVal;
  frame_number : PyVal;
  duration : PyVal;
  fps : PyVal;
  is_playing : PyVal
}.

Definition VideoState_default : VideoState :=
  mkVideoState (VFloat 0) (VInt 0) (VFloat 0) (VFloat 30) (VBool false).

Fixpoint lookup (k : string) (items : list (string * PyVal)) : option PyVal :=
  match items with
  | [] => None
  | (k', v) :: rest => if String.eqb k k' then Some v else lookup k rest
  end.

(** [d.get(k, default)]. *)
Definition dict_get (k : string) (default : PyVal) (items : list (string * PyVal)) : PyVal :=
  match lookup k items with
  | Some v => v
  | None => default
  end.

Section Environment.

(** Library functions and the world outside the module. *)
Variable b64encode : list Byte.byte -> string. (* base64.b64encode(b).decode() *)
Variable guess_type : string -> option string. (* mimetypes.guess_type(p)[0] *)
Variable fs : string -> option Entry.          (* the file system *)
Variable Session : Type.                       (* the running Streamlit script *)
Variable _component :
  Player.Data -> option string -> Session -> PyVal * Session.

Definition _get_mime_type (file_path : string) : string :=
  match guess_type file_path with
  | Some mime_type => if String.eqb mime_type "" then "video/mp4" else mime_type
  | None => "video/mp4"
  end.

Definition is_url (source : string) : bool :=
  String.prefix "data:" source || String.prefix "http://" source
  || String.prefix "https://" source || String.prefix "blob:" source.

(** The [isinstance(source, str)] branch. *)
Definition prepare_str (source : string) : result string :=
  if is_url source then Return source
  else
    match fs source with
    | Some entry =>                       (* path.exists() *)
        let mime_type := _get_mime_type source in
        match entry with
        | RegularFile content =>
            Return ("data:" ++ mime_type ++ ";base64," ++ b64encode content)
        | NotReadable => Raise OSError
        end
    | None => Raise (FileNotFoundError ("Video file not found: " ++ source))
    end.

Definition _prepare_video_source (source : Source) : result string :=
  match source with
  | Bytes content => Return ("data:video/mp4;base64," ++ b64encode content)
  | PathObj str => prepare_str str
  | Str s => prepare_str s
  | Other type_name =>
      Raise (TypeError ("Unsupported source type: " ++ type_name))
  end.

Definition default_state : PyVal :=
  VDict [("current_time", VFloat 0); ("frame_number", VInt 0);
         ("duration", VFloat 0); ("fps", VFloat 30);
         ("is_playing", VBool false)].

(** "Convert result to VideoState". *)
Definition to_VideoState (result : PyVal) : VideoState :=
  match result with
  | VNone => VideoState_default
  | _ =>
      let state_dict :=
        match result with
        | VObject attrs =>
            match lookup "state" attrs with
            | Some VNone | None => default_state
            | Some v => v
            end
        | VDict items => dict_get "state" default_state items
        | _ => default_state
        end in
      match state_dict with
      | VDict d =>
          mkVideoState
            (dict_get "current_time" (VFloat 0) d)
            (dict_get "frame_number" (VInt 0) d)
            (dict_get "duration" (VFloat 0) d)
            (dict_get "fps" (VFloat 30) d)
            (dict_get "is_playing" (VBool false) d)
      | _ => VideoState_default
      end
  end.

(** [video_player(source, key=, seek_to=, height=, autoplay=, loop=)]. *)
Definition video_player (source : Source) (key : option string)
  (seek_to : option float) (height : Z) (autoplay loop : bool)
  (s : Session) : result VideoState * Session :=
  match _prepare_video_source source with
  | Raise e => (Raise e, s)
  | Return video_src =>
      let data :=
        Player.mkData video_src
          (match seek_to with Some t => JNum t | None => JNull end)
          height autoplay loop in
      let (result, s1) := _component data key s in
      (Return (to_VideoState result), s1)
  end.

End Environment.

End Host.

(** ** Properties stated about runs *)

Module Spec.
Import JS Player.

(** Two Numbers that are the same value or compare equal with [==] (the two
    zeros do). *)
Definition same_number (x y : float) : Prop :=
  x = y \/ (x =? y)%float = true.

(** The frame number of a snapshot is derived from its own time and rate. *)
Definition frame_law (s : PlaybackState) : Prop :=
  same_number (frame_number s) (Math_floor (current_time s * fps s)%float).

(** [h], started in a state with [Pre], ends in a state with [Post] and does
    only things with [Q]. *)
Definition triple (Pre : Instance -> Prop) (h : Handler)
  (Post : Instance -> Prop) (Q : Output -> Prop) : Prop :=
  forall i, Pre i -> Post (fst (h i)) /\ Forall Q (snd (h i)).

(** A property of the snapshots, as a property of outputs. *)
Definition on_snapshot (P : PlaybackState -> Prop) (o : Output) : Prop :=
  match o with
  | SetStateValue _ s => P s
  | _ => True
  end.

(** Events whose listener calls [updateState()] without [force]. *)
Definition throttled_kind (k : EventKind) : bool :=
  match k with
  | TimeUpdate | AnimationFrame => true
  | _ => false
  end.

Definition emitted (os : list Output) : bool :=
  match snapshots os with
  | [] => false
  | _ :: _ => true
  end.

(** The clock readings at which a non-forced call emitted, in a run. *)
Fixpoint nonforced_emissions (i : Instance) (evs : list Event) : list Z :=
  match evs with
  | [] => []
  | e :: rest =>
      let here :=
        if throttled_kind (kind e) && emitted (snd (dispatch e i))
        then [date_now e] else [] in
      here ++ nonforced_emissions (fst (dispatch e i)) rest
  end.

(** The window of [W] ms that starts at [a]. *)
Definition in_window (a W t : Z) : bool := (a <=? t) && (t <=? a + W).

(** Clock readings that never go back. *)
Definition chronological (evs : list Event) : Prop :=
  StronglySorted Z.le (map date_now evs).

(** Readings at least one throttle interval apart. *)
Definition spaced (ts : list Z) : Prop :=
  StronglySorted (fun a b => a + UPDATE_THROTTLE_MS <= b) ts.

(** Events whose listener calls [updateState(true)]. *)
Definition forced_kind (k : EventKind) : bool :=
  match k with
  | LoadedMetadata | Play | Pause | Seeked | Ended => true
  | _ => false
  end.

(** *** The estimator session *)

(** What holds of the estimator in every reachable state: the fallback rate
    until convergence; and once converged, or once the sampler is armed, the
    once-only ['play'] listener is gone. *)
Definition estimator_ok (i : Instance) : Prop :=
  (fpsDetectionComplete i = false -> detectedFps i = 30%float)
  /\ (fpsDetectionComplete i = true ->
      startDetection i = false /\ countFrameRequested i = false)
  /\ (countFrameRequested i = true -> startDetection i = false).

(** The session is over and the rate is [r]. *)
Definition converged_at (r : float) (i : Instance) : Prop :=
  fpsDetectionComplete i = true /\ detectedFps i = r
  /\ startDetection i = false /\ countFrameRequested i = false.

(** No session was ever set up. *)
Definition disabled (i : Instance) : Prop :=
  fpsDetectionComplete i = false /\ detectedFps i = 30%float
  /\ startDetection i = false /\ countFrameRequested i = false.

(** An output that is no convergence message and, if a snapshot, has rate [r]. *)
Definition carries (r : float) (o : Output) : Prop :=
  match o with
  | SetStateValue _ s => fps s = r
  | ConsoleLog (DetectedFPS _) => False
  | _ => True
  end.

(** How many times a run announced a detected rate. *)
Fixpoint convergences (os : list Output) : nat :=
  match os with
  | [] => O
  | ConsoleLog (DetectedFPS _) :: rest => S (convergences rest)
  | _ :: rest => convergences rest
  end.

(** *** Seeks *)

(** The values assigned to [video.currentTime], in order. *)
Fixpoint assignments (os : list Output) : list float :=
  match os with
  | [] => []
  | AssignCurrentTime t :: rest => t :: assignments rest
  | _ :: rest => assignments rest
  end.

Definition is_LoadedMetadata (e : Event) : bool :=
  match kind e with
  | LoadedMetadata => true
  | _ => false
  end.

(** *** Bounds of the data model *)


(** The frame counter holds a count: an integer from [0] to [2^53], where
    [frameCount++] stops making a difference. *)
Definition counter_ok (x : float) : Prop :=
  exists n, 0 <= n <= 2 ^ 53 /\ x = of_Z n.

(** What holds of the rate and of the counter in every reachable state. *)
Definition rate_ok (i : Instance) : Prop :=
  finite_nonneg (detectedFps i) /\ counter_ok (frameCount i).



(** *** Further vocabulary for runs *)

Definition is_Play (e : Event) : bool :=
  match kind e with
  | Play => true
  | _ => false
  end.

Definition is_AnimationFrame (e : Event) : bool :=
  match kind e with
  | AnimationFrame => true
  | _ => false
  end.

(** The element is shown playing by an event's readings. *)
Definition shown_playing (e : Event) : bool :=
  negb (now_paused (element e)) && negb (now_ended (element e)).

(** The overlay written next to a snapshot. *)
Definition overlay_of (s : PlaybackState) : Overlay :=
  mkOverlay (current_time s) (frame_number s) (fps s).

(** The snapshot emitted last, if any. *)
Fixpoint last_snapshot (os : list Output) : option PlaybackState :=
  match os with
  | [] => None
  | o :: rest =>
      match last_snapshot rest with
      | Some s => Some s
      | None =>
          match o with
          | SetStateValue _ s => Some s
          | _ => None
          end
      end
  end.

(** The timestamps of the frame callbacks of a run, in order. *)
Fixpoint frame_times (evs : list Event) : list float :=
  match evs with
  | [] => []
  | e :: rest =>
      match kind e with
      | VideoFrame t => t :: frame_times rest
      | _ => frame_times rest
      end
  end.

Definition is_VideoFrame (e : Event) : bool :=
  match kind e with
  | VideoFrame _ => true
  | _ => false
  end.


End Spec.

(** ** Concrete pages, requests and event sequences *)

Module Scenarios.
Import JS Player.

(** A [<video controls>] element as the template creates it. *)
Definition blank_video : HTMLVideoElement :=
  mkVideo "" false false 0 nan true false 0 None.
Definition blank_page : Page := mkPage blank_video None None.

(** The same element once a 10 s clip is loaded. *)
Definition loaded_video : HTMLVideoElement :=
  mkVideo "https://example.org/clip.mp4" false false 0 10 true false 4
    (Some 400).
Definition loaded_page : Page := mkPage loaded_video (Some 400) None.

Definition request (seek_to : jsval) (autoplay loop : bool) : Data :=
  mkData "https://example.org/clip.mp4" seek_to 400 autoplay loop.

(** Readings of a loaded 10 s clip at position [t], playing or not. *)
Definition at_time (t : float) (playing : bool) : Readings :=
  mkReadings t 10 (negb playing) false 4.

Definition event (k : EventKind) (clock : Z) (t : float) (playing : bool)
  : Event :=
  mkEvent k clock (at_time t playing).

(** Time updates every 100 ms of wall clock from 1000 to 1500. *)
Definition fast_updates : list Event :=
  [event TimeUpdate 1000 0 true; event TimeUpdate 1100 0.125 true;
   event TimeUpdate 1200 0.25 true; event TimeUpdate 1300 0.375 true;
   event TimeUpdate 1400 0.5 true; event TimeUpdate 1500 0.625 true].

(** A first call on the loaded page, the clock reading 700. *)
Definition first_call : Instance * list Output :=
  component true (Some (request JNull false false)) 700 loaded_page.

(** A first play followed by four frame callbacks, 400 ms apart. *)
Definition slow_sampling : list Event :=
  [event Play 2000 0 true;
   event (VideoFrame 0) 2001 0 true;
   event (VideoFrame 400) 2401 0.375 true;
   event (VideoFrame 800) 2801 0.75 true].
Definition fourth_frame : Event := event (VideoFrame 1200) 3201 1.25 true.

(** A first play followed by 24 frame callbacks spread over one second, the
    last of them shown at position 2.5 s. *)
Definition frame_event (k : nat) : Event :=
  event (VideoFrame (5000 + of_Z (Z.of_nat k) * 43.5)%float)
        (2000 + Z.of_nat k * 43)
        (2.5 - of_Z (23 - Z.of_nat k) * 0.03125)%float true.
Definition one_second_of_frames : list Event :=
  event Play 2000 1.78125 true :: map frame_event (seq 0 24).

(** A request that carries a seek to 7 s, and what the browser reports
    after a call on the blank page: the metadata arrives, twice. *)
Definition seek_request : Data := request (JNum 7) false false.
Definition metadata_arrives : list Event :=
  [event TimeUpdate 800 0 false; event LoadedMetadata 900 0 false;
   event Play 1000 7 true; event LoadedMetadata 4000 0 false].

(** The host renders with a seek to 10 s, the user then scrubs back to 3 s,
    and the host renders again with the same target (only [loop] differs). *)
Definition render_1 : Instance * list Output :=
  component true (Some (request (JNum 10) false false)) 700 loaded_page.
Definition after_scrub : Instance :=
  exec (fst render_1) [event Seeked 1500 3 false].
Definition render_2 : Instance * list Output :=
  component true (Some (request (JNum 10) false true)) 2000 (dom after_scrub).

(** A page whose element was configured with [autoplay] and [loop] on. *)
Definition looping_page : Page :=
  mkPage (mkVideo "https://example.org/clip.mp4" true true 0 10 true
            false 4 (Some 400))
         (Some 400) None.


(** A host with one video file on disk; rendering a component appends its
    data to the session and returns no state yet. *)
Definition disk (path : string) : option Host.Entry :=
  if String.eqb path "clip.mp4" then Some (Host.RegularFile []) else None.
Definition no_mime (path : string) : option string := None.
Definition no_base64 (content : list Byte.byte) : string := EmptyString.
Definition render (data : Data) (key : option string) (s : list Data)
  : Host.PyVal * list Data := (Host.VNone, s ++ [data]).


(** Two play events in a row, then animation frames on a paused element
    and on a playing one. *)
Definition two_plays : list Event :=
  [event Play 2000 0 true; event Play 2005 0 true].
Definition frames_while_paused : list Event :=
  [event AnimationFrame 3000 1 false; event AnimationFrame 3016 1 false;
   event AnimationFrame 3033 1 false].
Definition frames_while_playing : list Event :=
  [event AnimationFrame 3000 1 true; event AnimationFrame 3016 1.0625 true].

(** Sampling interleaved with other events: three frames within the first
    second, with a pause, a second play and time updates between them. *)
Definition interrupted_sampling : list Event :=
  [event Play 2000 0 true;
   event (VideoFrame 100) 2001 0 true;
   event TimeUpdate 2250 0.25 true;
   event (VideoFrame 500) 2401 0.375 true;
   event Pause 2500 0.5 false;
   event Play 2600 0.5 true;
   event AnimationFrame 2616 0.5 true;
   event (VideoFrame 1000) 2901 0.75 true].

Definition armed_instance : Instance :=
  exec (fst first_call) (firstn 1 interrupted_sampling).
Definition sampling_events : list Event := skipn 1 interrupted_sampling.


End Scenarios.

(** ** Facts about binary64 arithmetic *)

Module FloatFacts.
Import JS.

(** *** Mantissas, exponents and rounding *)

Lemma fexp_eq k : fexp prec emax k = Z.max (k - 53) (-1074).
Proof. reflexivity. Qed.

Lemma digits2_pos_bounds p :
  2 ^ (Zpos (digits2_pos p) - 1) <= Zpos p < 2 ^ Zpos (digits2_pos p).
Proof.
  induction p as [p IH|p IH|]; cbn [digits2_pos].
  - rewrite Pos2Z.inj_succ.
    replace (Z.succ (Zpos (digits2_pos p)) - 1)
      with (Z.succ (Zpos (digits2_pos p) - 1)) by lia.
    rewrite !Z.pow_succ_r by lia. lia.
  - rewrite Pos2Z.inj_succ.
    replace (Z.succ (Zpos (digits2_pos p)) - 1)
      with (Z.succ (Zpos (digits2_pos p) - 1)) by lia.
    rewrite !Z.pow_succ_r by lia. lia.
  - cbn. lia.
Qed.

Lemma digits2_pos_unique p k :
  2 ^ (k - 1) <= Zpos p < 2 ^ k -> Zpos (digits2_pos p) = k.
Proof.
  intros [H1 H2]. pose proof (@digits2_pos_bounds p) as [B1 B2].
  assert (Hk : 0 < k).
  { destruct (Z_lt_le_dec 0 k) as [|Hk]; [assumption|].
    destruct (Z.eq_dec k 0) as [->|]; [cbn in H2; lia|].
    rewrite Z.pow_neg_r in H2 by lia. lia. }
  destruct (Z_lt_le_dec (Zpos (digits2_pos p)) k) as [Hlt|Hge].
  - assert (2 ^ Zpos (digits2_pos p) <= 2 ^ (k - 1))
      by (apply Z.pow_le_mono_r; lia).
    lia.
  - destruct (Z.eq_dec (Zpos (digits2_pos p)) k) as [|Hne]; [assumption|].
    assert (2 ^ k <= 2 ^ (Zpos (digits2_pos p) - 1))
      by (apply Z.pow_le_mono_r; lia).
    lia.
Qed.

Lemma loc_of_shr_record_of_loc m l :
  loc_of_shr_record (shr_record_of_loc m l) = l.
Proof. destruct l as [|[ | | ]]; reflexivity. Qed.

Lemma shr_m_of_loc m l : shr_m (shr_record_of_loc m l) = m.
Proof. destruct l as [|[ | | ]]; reflexivity. Qed.

Lemma round_nearest_even_cases m l :
  round_nearest_even m l = m \/ round_nearest_even m l = m + 1.
Proof.
  destruct l as [|[ | | ]]; cbn [round_nearest_even]; auto.
  destruct (Z.even m); auto.
Qed.

(** Rounding a mantissa that already has 53 bits, or 53 bits and a carry. *)
Lemma round_tail sx r e :
  2 ^ 52 <= r <= 2 ^ 53 -> -1074 <= e -> e + 1 <= 971 ->
  exists m e',
    (let '(mrs, e'') := shr_fexp prec emax r e loc_Exact in
     match shr_m mrs with
     | Z0 => S754_zero sx
     | Zpos m =>
         if e'' <=? emax - prec then S754_finite sx m e''
         else S754_infinity sx
     | Zneg _ => S754_nan
     end) = S754_finite sx m e'
    /\ e <= e' <= e + 1 /\ 2 ^ 52 <= Zpos m < 2 ^ 53.
Proof.
  intros Hr He1 He2.
  destruct (Z.eq_dec r (2 ^ 53)) as [->|Hne].
  - unfold shr_fexp. change (Zdigits2 (2 ^ 53)) with 54.
    rewrite fexp_eq. replace (Z.max (54 + e - 53) (-1074) - e) with 1 by lia.
    cbn [shr shr_record_of_loc iter_pos]. cbn [shr_1 Z.pow Z.pow_pos Pos.iter Z.mul Pos.mul shr_m].
    change (emax - prec) with 971.
    destruct (Z.leb_spec (e + 1) 971); [|lia].
    eexists _, _. split; [reflexivity|]. split; [lia|]. cbn. lia.
  - destruct r as [|p|p]; try (exfalso; cbn in Hr; lia).
    unfold shr_fexp. cbn [Zdigits2].
    rewrite (@digits2_pos_unique p 53) by (change (53 - 1) with 52; lia).
    rewrite fexp_eq. replace (Z.max (53 + e - 53) (-1074) - e) with 0 by lia.
    cbn [shr shr_record_of_loc shr_m].
    change (emax - prec) with 971.
    destruct (Z.leb_spec e 971); [|lia].
    eexists _, _. split; [reflexivity|]. split; lia.
Qed.

(** [binary_round_aux] on a mantissa of 53 or 54 bits: the result is a
    finite number of the same sign, the exponent moving up by at most two. *)
Lemma binary_round_aux_normal sx p ex lx :
  2 ^ 52 <= Zpos p < 2 ^ 54 -> -1074 <= ex -> ex + 2 <= 971 ->
  exists m e,
    binary_round_aux prec emax sx (Zpos p) ex lx = S754_finite sx m e
    /\ ex <= e <= ex + 2 /\ 2 ^ 52 <= Zpos m < 2 ^ 53.
Proof.
  intros Hp He1 He2. unfold binary_round_aux.
  destruct (Z_lt_le_dec (Zpos p) (2 ^ 53)) as [Hlt|Hge].
  - (* 53 bits: nothing is shifted out *)
    unfold shr_fexp at 1. cbn [Zdigits2].
    rewrite (@digits2_pos_unique p 53) by (change (53 - 1) with 52; lia).
    rewrite fexp_eq. replace (Z.max (53 + ex - 53) (-1074) - ex) with 0 by lia.
    cbn [shr]. rewrite loc_of_shr_record_of_loc, shr_m_of_loc.
    destruct (@round_tail sx (round_nearest_even (Zpos p) lx) ex)
      as [m [e [H1 [H2 H3]]]]; try lia.
    { destruct (@round_nearest_even_cases (Zpos p) lx) as [->| ->]; lia. }
    exists m, e. split; [exact H1|]. split; lia.
  - (* 54 bits: one bit is shifted out *)
    unfold shr_fexp at 1. cbn [Zdigits2].
    rewrite (@digits2_pos_unique p 54) by (change (54 - 1) with 53; lia).
    rewrite fexp_eq. replace (Z.max (54 + ex - 53) (-1074) - ex) with 1 by lia.
    cbn [shr iter_pos].
    set (mrs := shr_1 (shr_record_of_loc (Zpos p) lx)).
    assert (Hm : 2 ^ 52 <= shr_m mrs < 2 ^ 53).
    { subst mrs. destruct lx as [|[ | | ]], p as [q|q|];
        cbn [shr_record_of_loc shr_1 shr_m orb]; try lia; cbn in Hge; lia. }
    destruct (@round_tail sx
                (round_nearest_even (shr_m mrs) (loc_of_shr_record mrs))
                (ex + 1))
      as [m [e [H1 [H2 H3]]]]; try lia.
    { destruct (@round_nearest_even_cases (shr_m mrs) (loc_of_shr_record mrs))
        as [->| ->]; lia. }
    exists m, e. split; [exact H1|]. split; lia.
Qed.

(** The quotient of two positive normal numbers, away from overflow and
    underflow, is a positive normal number. *)
Lemma SFdiv_normal m1 e1 m2 e2 :
  2 ^ 52 <= Zpos m1 < 2 ^ 53 -> 2 ^ 52 <= Zpos m2 < 2 ^ 53 ->
  -1021 <= e1 - e2 <= 1022 ->
  exists m e,
    SFdiv prec emax (S754_finite false m1 e1) (S754_finite false m2 e2)
    = S754_finite false m e
    /\ e1 - e2 - 53 <= e <= e1 - e2 - 51 /\ 2 ^ 52 <= Zpos m < 2 ^ 53.
Proof.
  intros H1 H2 Hk. cbn [SFdiv xorb]. unfold SFdiv_core_binary.
  cbn [Zdigits2].
  rewrite (@digits2_pos_unique m1 53) by (change (53 - 1) with 52; lia).
  rewrite (@digits2_pos_unique m2 53) by (change (53 - 1) with 52; lia).
  rewrite fexp_eq.
  replace (Z.min (Z.max (53 + e1 - (53 + e2) - 53) (-1074)) (e1 - e2))
    with (e1 - e2 - 53) by lia.
  replace (e1 - e2 - (e1 - e2 - 53)) with 53 by lia.
  cbv zeta.
  change (Z.shiftl (Zpos m1) 53) with (Zpos m1 * 2 ^ 53) ||
    rewrite Z.shiftl_mul_pow2 by lia.
  pose proof (Z_div_mod (Zpos m1 * 2 ^ 53) (Zpos m2) eq_refl) as Hd.
  destruct (Z.div_eucl (Zpos m1 * 2 ^ 53) (Zpos m2)) as [q r].
  destruct Hd as [Hq Hr].
  assert (Hq1 : 2 ^ 52 <= q < 2 ^ 54).
  { change (2 ^ 53) with 9007199254740992 in *.
    change (2 ^ 52) with 4503599627370496 in *.
    change (2 ^ 54) with 18014398509481984 in *. nia. }
  destruct q as [|q|q]; try (exfalso; cbn in Hq1; lia).
  destruct (@binary_round_aux_normal false q (e1 - e2 - 53)
              (new_location (Zpos m2) r)) as [m [e [E1 [E2 E3]]]]; try lia.
  exists m, e. split; [exact E1|]. split; lia.
Qed.

(** What [Prim2SF_valid] says of a finite number above the subnormal range:
    its mantissa has exactly 53 bits. *)
Lemma finite_canonical x s m e :
  Prim2SF x = S754_finite s m e ->
  e <= 971 /\ (-1074 < e -> 2 ^ 52 <= Zpos m < 2 ^ 53).
Proof.
  intros H. pose proof (Prim2SF_valid x) as V. rewrite H in V.
  cbn [valid_binary] in V. unfold bounded, canonical_mantissa in V.
  apply andb_true_iff in V. destruct V as [V1 V2].
  apply Z.eqb_eq in V1. apply Z.leb_le in V2.
  change (emax - prec) with 971 in V2. rewrite fexp_eq in V1.
  split; [assumption|]. intros He.
  pose proof (@digits2_pos_bounds m) as B.
  assert (Hd : Zpos (digits2_pos m) = 53) by lia.
  rewrite Hd in B. change (53 - 1) with 52 in B. exact B.
Qed.

Lemma Prim2SF_1000 :
  Prim2SF 1000 = S754_finite false 8796093022208000 (-43).
Proof. reflexivity. Qed.

(** A number that compares [>= 1000] is [+infinity] or a positive normal
    number with exponent at least that of [1000]. *)
Lemma at_least_1000 x :
  (1000 <=? x)%float = true ->
  Prim2SF x = S754_infinity false
  \/ exists m e, Prim2SF x = S754_finite false m e
                 /\ -43 <= e <= 971 /\ 2 ^ 52 <= Zpos m < 2 ^ 53.
Proof.
  rewrite FloatAxioms.leb_spec, Prim2SF_1000. intros H.
  destruct (Prim2SF x) as [s|s| |s m e] eqn:E; try discriminate H.
  - destruct s; [discriminate H | now left].
  - destruct s; [discriminate H|].
    right. exists m, e. split; [reflexivity|].
    destruct (@finite_canonical x _ _ _ E) as [C1 C2].
    assert (He : -43 <= e).
    { unfold SFleb, SFcompare in H.
      destruct (Z.compare_spec (-43) e); try lia; discriminate H. }
    split; [lia|]. apply C2. lia.
Qed.

Lemma iter_pos_eq {A} (f : A -> A) n : forall x, iter_pos f n x = Pos.iter f x n.
Proof.
  induction n as [n IH|n IH|]; intros x; cbn [iter_pos Pos.iter].
  - now rewrite !IH, <- !Pos.iter_swap.
  - now rewrite !IH.
  - reflexivity.
Qed.

Lemma iter_xO q k : Zpos (Pos.iter xO q k) = Zpos q * 2 ^ Zpos k.
Proof.
  induction k as [|k IH] using Pos.peano_ind.
  - cbn [Pos.iter]. change (2 ^ 1) with 2. lia.
  - rewrite Pos.iter_succ, Pos2Z.inj_xO, IH, Pos2Z.inj_succ, Z.pow_succ_r; lia.
Qed.

(** Shifting out [k] zero bits is exact. *)
Lemma shr_zero_bits k : forall q,
  iter_pos shr_1 k
    {| shr_m := Zpos (Pos.iter xO q k); shr_r := false; shr_s := false |}
  = {| shr_m := Zpos q; shr_r := false; shr_s := false |}.
Proof.
  intros q. rewrite iter_pos_eq.
  induction k as [|k IH] using Pos.peano_ind.
  - reflexivity.
  - rewrite Pos.iter_succ_r, Pos.iter_succ. cbn [shr_1 orb]. exact IH.
Qed.

(** A 53-bit mantissa with nothing to round off is kept as it is. *)
Lemma round_tail_exact sx p e :
  2 ^ 52 <= Zpos p < 2 ^ 53 -> -1074 <= e <= 971 ->
  (let '(mrs, e'') := shr_fexp prec emax (Zpos p) e loc_Exact in
   match shr_m mrs with
   | Z0 => S754_zero sx
   | Zpos m =>
       if e'' <=? emax - prec then S754_finite sx m e''
       else S754_infinity sx
   | Zneg _ => S754_nan
   end) = S754_finite sx p e.
Proof.
  intros Hp He. unfold shr_fexp. cbn [Zdigits2].
  rewrite (@digits2_pos_unique p 53) by (change (53 - 1) with 52; lia).
  rewrite fexp_eq. replace (Z.max (53 + e - 53) (-1074) - e) with 0 by lia.
  cbn [shr shr_record_of_loc shr_m]. change (emax - prec) with 971.
  destruct (Z.leb_spec e 971); [reflexivity|lia].
Qed.

Lemma binary_round_aux_exact sx p e :
  2 ^ 52 <= Zpos p < 2 ^ 53 -> -1074 <= e <= 971 ->
  binary_round_aux prec emax sx (Zpos p) e loc_Exact = S754_finite sx p e.
Proof.
  intros Hp He. unfold binary_round_aux. unfold shr_fexp at 1.
  cbn [Zdigits2].
  rewrite (@digits2_pos_unique p 53) by (change (53 - 1) with 52; lia).
  rewrite fexp_eq. replace (Z.max (53 + e - 53) (-1074) - e) with 0 by lia.
  cbn [shr shr_record_of_loc shr_m loc_of_shr_record round_nearest_even].
  now apply round_tail_exact.
Qed.

(** The same mantissa carrying [k] more zero bits on the right. *)
Lemma binary_round_aux_shifted sx q k e :
  2 ^ 52 <= Zpos q < 2 ^ 53 -> -1074 <= e + Zpos k <= 971 ->
  binary_round_aux prec emax sx (Zpos (Pos.iter xO q k)) e loc_Exact
  = S754_finite sx q (e + Zpos k).
Proof.
  intros Hq He. unfold binary_round_aux. unfold shr_fexp at 1.
  cbn [Zdigits2].
  rewrite (@digits2_pos_unique (Pos.iter xO q k) (53 + Zpos k)).
  2:{ rewrite iter_xO. replace (53 + Zpos k - 1) with (52 + Zpos k) by lia.
      rewrite !Z.pow_add_r by lia.
      assert (0 < 2 ^ Zpos k) by (apply Z.pow_pos_nonneg; lia). nia. }
  rewrite fexp_eq.
  replace (Z.max (53 + Zpos k + e - 53) (-1074) - e) with (Zpos k) by lia.
  cbn [shr shr_record_of_loc]. rewrite shr_zero_bits.
  cbn [shr_m loc_of_shr_record round_nearest_even].
  now apply round_tail_exact.
Qed.

Lemma pow2_split a b : 0 <= a -> 0 <= b -> 2 ^ (a + b) = 2 ^ a * 2 ^ b.
Proof. intros. now apply Z.pow_add_r. Qed.

(** The Number of a positive integer below [2^53] is that integer: the
    mantissa is the integer shifted up to 53 bits. *)
Lemma Prim2SF_of_Z n :
  1 <= n < 2 ^ 53 ->
  exists m e,
    Prim2SF (of_Z n) = S754_finite false m e
    /\ 2 ^ 52 <= Zpos m < 2 ^ 53 /\ -52 <= e <= 0
    /\ Zpos m = n * 2 ^ (- e).
Proof.
  intros Hn. destruct n as [|p|p]; try lia. cbn [of_Z].
  rewrite of_uint63_spec, Uint63.of_Z_spec.
  rewrite Z.mod_small
    by (change wB with (2 ^ 63);
        assert (2 ^ 53 < 2 ^ 63) by (apply Z.pow_lt_mono_r; lia); lia).
  cbn [binary_normalize]. unfold binary_round.
  pose proof (@digits2_pos_bounds p) as [B1 B2].
  set (d := Zpos (digits2_pos p)) in *.
  assert (Hd : 1 <= d <= 53).
  { split; [subst d; lia|].
    destruct (Z_lt_le_dec 53 d) as [Hgt|]; [|lia].
    assert (2 ^ 53 <= 2 ^ (d - 1)) by (apply Z.pow_le_mono_r; lia). lia. }
  rewrite fexp_eq. unfold shl_align.
  replace (Z.max (d + 0 - 53) (-1074) - 0) with (d - 53) by lia.
  assert (Hpow : 2 ^ (d - 1) * 2 ^ (53 - d) = 2 ^ 52)
    by (rewrite <- pow2_split by lia; f_equal; lia).
  assert (Hpow' : 2 ^ d * 2 ^ (53 - d) = 2 ^ 53)
    by (rewrite <- pow2_split by lia; f_equal; lia).
  assert (Hpos : 0 < 2 ^ (53 - d)) by (apply Z.pow_pos_nonneg; lia).
  destruct (d - 53) as [|k|k] eqn:E; try lia.
  - assert (d = 53) by lia.
    exists p, 0. replace (53 - d) with 0 in * by lia.
    replace (Z.max (d + 0 - 53) (-1074)) with 0 by lia.
    rewrite binary_round_aux_exact by (change (2 ^ 0) with 1 in *; lia).
    split; [reflexivity|]. change (2 ^ (- 0)) with 1.
    change (2 ^ 0) with 1 in *. lia.
  - replace (Z.max (d + 0 - 53) (-1074)) with (d - 53) by lia.
    assert (Hk : Zpos k = 53 - d) by lia.
    assert (Hm : Zpos (Pos.iter xO p k) = Zpos p * 2 ^ (53 - d))
      by (rewrite iter_xO, Hk; reflexivity).
    exists (Pos.iter xO p k), (d - 53).
    rewrite binary_round_aux_exact by (rewrite ?Hm; nia).
    split; [reflexivity|]. rewrite Hm.
    replace (- (d - 53)) with (53 - d) by lia. split; [nia|]. split; lia.
Qed.

Lemma Prim2SF_one : Prim2SF 1 = S754_finite false 4503599627370496 (-52).
Proof. reflexivity. Qed.

(** Counting in a Number: below [2^53] adding one is exact. *)
Lemma of_Z_succ n :
  1 <= n -> n + 1 < 2 ^ 53 -> (of_Z n + 1)%float = of_Z (n + 1).
Proof.
  intros H1 H2. apply Prim2SF_inj.
  rewrite FloatAxioms.add_spec, Prim2SF_one.
  destruct (@Prim2SF_of_Z n) as [m [e [E [Hm [He Hv]]]]]; [lia|].
  destruct (@Prim2SF_of_Z (n + 1)) as [m' [e' [E' [Hm' [He' Hv']]]]]; [lia|].
  rewrite E, E'. unfold SF64add. cbn [SFadd].
  replace (Z.min e (-52)) with (-52) by lia.
  (* the aligned mantissa of [n] is [n * 2^52] *)
  assert (Ha : exists a, fst (shl_align m e (-52)) = a
                         /\ Zpos a = n * 2 ^ 52).
  { unfold shl_align. destruct (-52 - e) as [|k|k] eqn:Ek; try lia.
    - exists m. split; [reflexivity|]. rewrite Hv.
      replace (- e) with 52 by lia. reflexivity.
    - exists (Pos.iter xO m k). split; [reflexivity|].
      rewrite iter_xO, Hv. replace (Zpos k) with (52 + e) by lia.
      rewrite <- Z.mul_assoc, <- pow2_split by lia. do 2 f_equal. lia. }
  destruct Ha as [a [-> Ha]].
  change (fst (shl_align 4503599627370496 (-52) (-52)))
    with 4503599627370496%positive.
  cbn [cond_Zopp Z.add binary_normalize].
  (* the sum is the mantissa of [n + 1] with [52 + e'] zero bits *)
  assert (He'' : -51 <= e').
  { destruct (Z_lt_le_dec e' (-51)) as [Hlt|]; [|lia].
    assert (e' = -52) by lia. subst e'. change (- -52) with 52 in Hv'.
    change (2 ^ 52) with 4503599627370496 in *.
    change (2 ^ 53) with 9007199254740992 in *. lia. }
  assert (Hk : exists k, Zpos k = 52 + e') by (exists (Z.to_pos (52 + e')); lia).
  destruct Hk as [k Hk].
  assert (Hsum : (a + 4503599627370496)%positive = Pos.iter xO m' k).
  { apply Pos2Z.inj. rewrite Pos2Z.inj_add, Ha, iter_xO, Hv', Hk.
    rewrite <- Z.mul_assoc, <- pow2_split by lia.
    replace (- e' + (52 + e')) with 52 by lia.
    change (2 ^ 52) with 4503599627370496. lia. }
  rewrite Hsum. unfold binary_round.
  assert (Hdig : Zpos (digits2_pos (Pos.iter xO m' k)) = 53 + Zpos k).
  { apply digits2_pos_unique. rewrite iter_xO.
    replace (53 + Zpos k - 1) with (52 + Zpos k) by lia.
    rewrite !pow2_split by lia.
    assert (0 < 2 ^ Zpos k) by (apply Z.pow_pos_nonneg; lia). nia. }
  rewrite Hdig, fexp_eq. unfold shl_align.
  replace (Z.max (53 + Zpos k + -52 - 53) (-1074) - -52) with (Zpos k) by lia.
  rewrite binary_round_aux_shifted by lia.
  f_equal. lia.
Qed.

(** The frame counter: a Number that starts at [0] and is incremented by
    one holds an integer; at [2^53] the increment is rounded away. *)
Lemma of_Z_incr n :
  0 <= n <= 2 ^ 53 ->
  (of_Z n + 1)%float = of_Z (Z.min (n + 1) (2 ^ 53)).
Proof.
  intros Hn.
  destruct (Z.eq_dec n 0) as [->|H0]; [reflexivity|].
  destruct (Z.eq_dec n (2 ^ 53)) as [->|H1]; [reflexivity|].
  destruct (Z.eq_dec n (2 ^ 53 - 1)) as [->|H2]; [reflexivity|].
  rewrite Z.min_l by lia. apply of_Z_succ; lia.
Qed.

(** *** Signs and classes *)

Lemma Prim2SF_zero : Prim2SF 0%float = S754_zero false.
Proof. reflexivity. Qed.

Lemma nonneg_iff x : nonneg x <-> SFnonneg (Prim2SF x) = true.
Proof.
  unfold nonneg. rewrite FloatAxioms.leb_spec, Prim2SF_zero.
  destruct (Prim2SF x) as [s|s| |s m e]; cbn; try (destruct s; cbn);
    intuition congruence.
Qed.

Lemma is_infinity_iff x :
  is_infinity x = true <-> exists s, Prim2SF x = S754_infinity s.
Proof.
  unfold is_infinity. rewrite FloatAxioms.eqb_spec, abs_spec.
  change (Prim2SF infinity) with (S754_infinity false).
  destruct (Prim2SF x) as [s|s| |s m e]; cbn; split;
    try discriminate; try (intros [s' H]; discriminate H).
  - intros _. now exists s.
  - reflexivity.
Qed.

Lemma finite_nonneg_iff x :
  finite_nonneg x <-> SFfinite_nonneg (Prim2SF x) = true.
Proof.
  unfold finite_nonneg. rewrite nonneg_iff. split.
  - intros [H1 H2].
    destruct (Prim2SF x) as [s|s| |s m e] eqn:E;
      cbn [SFnonneg SFfinite_nonneg] in *; auto.
    assert (is_infinity x = true) by (apply is_infinity_iff; now exists s).
    congruence.
  - intros H. split.
    + destruct (Prim2SF x) as [s|s| |s m e];
        cbn [SFnonneg SFfinite_nonneg] in *; auto; discriminate.
    + destruct (is_infinity x) eqn:E; [|reflexivity].
      apply is_infinity_iff in E. destruct E as [s E]. rewrite E in H.
      discriminate H.
Qed.

Lemma nonneg_not_nan x : nonneg x -> is_nan x = false.
Proof.
  intros H. apply nonneg_iff in H. unfold is_nan.
  rewrite FloatAxioms.eqb_spec.
  destruct (Prim2SF x) as [s|s| |s m e]; cbn [SFnonneg] in H;
    try discriminate H.
  - reflexivity.
  - now destruct s.
  - apply negb_true_iff in H. subst s. unfold SFeqb, SFcompare.
    rewrite Z.compare_refl, Pos.compare_cont_refl. reflexivity.
Qed.






Lemma of_Z_finite_nonneg n : 0 <= n < 2 ^ 53 -> finite_nonneg (of_Z n).
Proof.
  intros Hn. apply finite_nonneg_iff.
  destruct (Z.eq_dec n 0) as [->|H0]; [reflexivity|].
  destruct (@Prim2SF_of_Z n) as [m [e [E _]]]; [lia|].
  now rewrite E.
Qed.

Lemma finite_mantissa x s m e :
  Prim2SF x = S754_finite s m e -> Zpos m < 2 ^ 53.
Proof.
  intros H. pose proof (Prim2SF_valid x) as V. rewrite H in V.
  cbn [valid_binary] in V. unfold bounded, canonical_mantissa in V.
  apply andb_true_iff in V. destruct V as [V1 _].
  apply Z.eqb_eq in V1. rewrite fexp_eq in V1.
  pose proof (@digits2_pos_bounds m) as [_ B].
  assert (Hd : Zpos (digits2_pos m) <= 53) by lia.
  assert (2 ^ Zpos (digits2_pos m) <= 2 ^ 53)
    by (apply Z.pow_le_mono_r; lia).
  lia.
Qed.


(** [Math.round] of a finite number that is not negative is one again. *)
Lemma Math_round_finite_nonneg x :
  finite_nonneg x -> finite_nonneg (Math_round x).
Proof.
  intros H. pose proof H as H'. apply finite_nonneg_iff in H'.
  unfold Math_round.
  destruct (Prim2SF x) as [s|s| |s m e] eqn:E; try assumption.
  destruct (0 <=? e) eqn:He; [assumption|].
  apply Z.leb_gt in He. cbn [SFfinite_nonneg] in H'.
  apply negb_true_iff in H'. subst s. cbn [cond_Zopp].
  rewrite andb_false_r. apply of_Z_finite_nonneg.
  pose proof (@finite_mantissa x _ _ _ E) as Hm.
  rewrite Z.shiftr_div_pow2, Z.shiftl_mul_pow2 by lia.
  replace (1 - e) with (1 + - e) by lia. rewrite pow2_split by lia.
  change (2 ^ 1) with 2.
  assert (Ht : 2 <= 2 ^ (- e)).
  { change 2 with (2 ^ 1) at 1. apply Z.pow_le_mono_r; lia. }
  set (t := 2 ^ (- e)) in *.
  split.
  - apply Z.div_pos; lia.
  - apply Z.div_lt_upper_bound; [lia|].
    change (2 ^ 53) with 9007199254740992 in *. nia.
Qed.

Lemma Prim2SF_counter n :
  1 <= n <= 2 ^ 53 ->
  exists m e,
    Prim2SF (of_Z n) = S754_finite false m e
    /\ 2 ^ 52 <= Zpos m < 2 ^ 53 /\ -52 <= e <= 1.
Proof.
  intros Hn. destruct (Z.eq_dec n (2 ^ 53)) as [->|Hne].
  - exists 4503599627370496%positive, 1. split; [reflexivity|].
    split; [cbn|]; lia.
  - destruct (@Prim2SF_of_Z n) as [m [e [E [Hm [He _]]]]]; [lia|].
    exists m, e. split; [exact E|]. split; lia.
Qed.

(** The rate computed at convergence is a finite number that is not
    negative: the elapsed time is at least [1000], possibly [+Infinity], and
    the counter is a count of at least one. *)
Lemma rate_finite_nonneg n elapsed :
  1 <= n <= 2 ^ 53 ->
  (1000 <=? elapsed)%float = true ->
  finite_nonneg (Math_round (of_Z n / (elapsed / 1000)))%float.
Proof.
  intros Hn He. apply Math_round_finite_nonneg, finite_nonneg_iff.
  rewrite !FloatAxioms.div_spec, Prim2SF_1000. unfold SF64div.
  destruct (@Prim2SF_counter n Hn) as [mc [ec [Ec [Hmc Hec]]]].
  rewrite Ec.
  destruct (@at_least_1000 elapsed He) as [->|[m [e [-> [Hex Hm]]]]].
  - reflexivity.
  - destruct (@SFdiv_normal m e 8796093022208000 (-43))
      as [md [ed [-> [Hed Hmd]]]]; try lia.
    destruct (@SFdiv_normal mc ec md ed) as [mq [eq [-> _]]]; try lia.
    reflexivity.
Qed.

End FloatFacts.

(** ** Proofs about the tracker *)

Module TrackerProofs.
Import JS Player Spec FloatFacts.
Local Open Scope handler_scope.

Lemma snapshots_app (a b : list Output) :
  snapshots (a ++ b) = snapshots a ++ snapshots b.
Proof.
  induction a as [|o a IH]; simpl; [reflexivity|].
  destruct o; simpl; now rewrite IH.
Qed.

(** *** Facts about Numbers *)

(** A falsy Number that is not [NaN] is one of the two zeros. *)
Lemma falsy_zero x :
  falsy x = true -> is_nan x = false -> exists s, Prim2SF x = S754_zero s.
Proof.
  unfold falsy. intros H Hn. rewrite Hn, orb_false_r in H.
  rewrite FloatAxioms.eqb_spec, Prim2SF_zero in H.
  destruct (Prim2SF x) as [s| s| |s m e]; try discriminate;
    try (destruct s; discriminate).
  now exists s.
Qed.

(** The product of a zero with anything is a zero or [NaN], and stays what
    it is when the zero changes sign. *)
Lemma zero_product s x f :
  Prim2SF x = S754_zero s ->
  (Prim2SF (x * f)%float = S754_nan /\ Prim2SF (0 * f)%float = S754_nan)
  \/ (exists s1 s2, Prim2SF (x * f)%float = S754_zero s1
                    /\ Prim2SF (0 * f)%float = S754_zero s2).
Proof.
  intros Hx. rewrite !FloatAxioms.mul_spec, Hx, Prim2SF_zero. unfold SF64mul, SFmul.
  destruct (Prim2SF f) as [sf| sf| |sf mf ef]; eauto.
Qed.

Lemma Math_floor_not_finite x :
  (forall s m e, Prim2SF x <> S754_finite s m e) -> Math_floor x = x.
Proof.
  intros H. unfold Math_floor.
  destruct (Prim2SF x) as [s| s| |s m e] eqn:E; try reflexivity.
  destruct (H s m e). reflexivity.
Qed.

Lemma or_zero_truthy x : falsy x = false -> or_zero x = x.
Proof. unfold or_zero. now intros ->. Qed.

Lemma or_zero_falsy x : falsy x = true -> or_zero x = 0%float.
Proof. unfold or_zero. now intros ->. Qed.

(** *** Sequencing rules for [triple] *)

Lemma triple_andThen Pre Mid Post Q (f g : Handler) :
  triple Pre f Mid Q -> triple Mid g Post Q -> triple Pre (f ;; g) Post Q.
Proof.
  intros Hf Hg i Hi. unfold andThen.
  destruct (Hf i Hi) as [Hm Hq]. destruct (f i) as [i1 o1]. simpl in *.
  destruct (Hg i1 Hm) as [Hp Hq']. destruct (g i1) as [i2 o2]. simpl in *.
  split; [assumption|]. apply Forall_app. now split.
Qed.

Lemma triple_modify (Pre Post : Instance -> Prop) Q f :
  (forall i, Pre i -> Post (f i)) -> triple Pre (modify f) Post Q.
Proof. intros H i Hi. split; [now apply H | constructor]. Qed.

Lemma triple_weaken (Pre Pre' Post Post' : Instance -> Prop) Q (h : Handler) :
  (forall i, Pre' i -> Pre i) -> (forall i, Post i -> Post' i) ->
  triple Pre h Post Q -> triple Pre' h Post' Q.
Proof.
  intros H1 H2 H i Hi. destruct (H i (H1 i Hi)). split; auto.
Qed.

Lemma on_snapshot_Forall P os :
  Forall (on_snapshot P) os -> Forall P (snapshots os).
Proof.
  induction 1 as [|o os Ho _ IH]; simpl; [constructor|].
  destruct o; simpl in *; auto.
Qed.

(** What a run does, from what one dispatch does. *)
Lemma run_triple (Inv : Instance -> Prop) Q (ok : Event -> Prop) :
  (forall e, ok e -> triple Inv (dispatch e) Inv Q) ->
  forall evs, Forall ok evs -> triple Inv (fun i => run i evs) Inv Q.
Proof.
  intros H evs Hok. induction Hok as [|e rest He _ IH]; intros i Hi; simpl.
  - split; [assumption | constructor].
  - destruct (H e He i Hi) as [H1 H2]. destruct (dispatch e i) as [i1 o1].
    simpl in *. destruct (IH i1 H1) as [H3 H4].
    destruct (run i1 rest) as [i2 o2]. simpl in *.
    split; [assumption|]. apply Forall_app. now split.
Qed.

Lemma run_app i evs evs' :
  run i (evs ++ evs') =
  (exec (exec i evs) evs', outputs i evs ++ outputs (exec i evs) evs').
Proof.
  unfold exec, outputs. revert i.
  induction evs as [|e rest IH]; intros i; simpl.
  - now destruct (run i evs').
  - destruct (dispatch e i) as [i1 o1]. rewrite IH.
    destruct (run i1 rest) as [i2 o2]. simpl. now rewrite app_assoc.
Qed.

(** *** [updateState] *)

Lemma updateState_cases force now i :
  (negb force && (now - lastUpdateTime i <? UPDATE_THROTTLE_MS) = true
   /\ updateState force now i = (i, []))
  \/
  (negb force && (now - lastUpdateTime i <? UPDATE_THROTTLE_MS) = false
   /\ snd (updateState force now i) = [SetStateValue "state" (state_of i)]
   /\ fst (updateState force now i) =
        with_dom (set_info (mkOverlay (or_zero (currentTime (video (dom i))))
                              (getCurrentFrame i) (detectedFps i)))
          (set_lastUpdateTime now i)).
Proof.
  unfold updateState.
  destruct (negb force && (now - lastUpdateTime i <? UPDATE_THROTTLE_MS)).
  - left. auto.
  - right. repeat split.
Qed.

Lemma state_of_frame_law i :
  is_nan (currentTime (video (dom i))) = false -> frame_law (state_of i).
Proof.
  intros Hn. unfold frame_law, state_of, getCurrentFrame.
  cbn [frame_number current_time fps].
  destruct (falsy (currentTime (video (dom i)))) eqn:F.
  - rewrite (or_zero_falsy _ F).
    destruct (falsy_zero _ F Hn) as [s Hs].
    destruct (@zero_product s _ (detectedFps i) Hs)
      as [[N1 N2]|[s1 [s2 [Z1 Z2]]]].
    + left. f_equal. apply Prim2SF_inj. now rewrite N1, N2.
    + right. rewrite !Math_floor_not_finite
        by (intros ? ? ?; rewrite ?Z1, ?Z2; discriminate).
      rewrite FloatAxioms.eqb_spec, Z1, Z2. reflexivity.
  - rewrite (or_zero_truthy _ F). now left.
Qed.

Lemma triple_updateState (Pre Post : Instance -> Prop) (Q : Output -> Prop)
  force now :
  (forall i, Pre i -> Q (SetStateValue "state" (state_of i))) ->
  (forall i, Pre i -> Post i) ->
  (forall i, Pre i ->
     Post (with_dom (set_info (mkOverlay (or_zero (currentTime (video (dom i))))
                                 (getCurrentFrame i) (detectedFps i)))
             (set_lastUpdateTime now i))) ->
  triple Pre (updateState force now) Post Q.
Proof.
  intros HQ Hskip Hemit i Hi.
  destruct (updateState_cases force now i) as [[_ E]|[_ [Eo Ei]]].
  - rewrite E. simpl. split; [auto | constructor].
  - rewrite Eo, Ei. split; [auto|]. constructor; [auto | constructor].
Qed.

Lemma andThen_eq (f g : Handler) i :
  (f ;; g) i = (fst (g (fst (f i))), snd (f i) ++ snd (g (fst (f i)))).
Proof.
  unfold andThen. destruct (f i) as [i1 o1]. simpl. now destruct (g i1).
Qed.

(** Reads fields through the updates made to them. *)
Ltac fields_in_goal :=
  cbn [fst snd dom detectedFps fpsDetectionComplete lastUpdateTime lastSeekTo
       frameCount startTime seekOnMetadata startDetection countFrameRequested
       tickRequested with_dom with_video observe
       set_detectedFps set_fpsDetectionComplete set_lastUpdateTime
       set_lastSeekTo set_frameCount set_startTime set_seekOnMetadata
       set_startDetection set_countFrameRequested set_tickRequested
       set_src set_autoplay set_loop set_currentTime set_maxHeight
       set_container_height set_info
       video container_style_height info_textContent
       src autoplay loop currentTime duration paused ended readyState
       style_maxHeight current_time frame_number state_duration fps
       is_playing now_currentTime now_duration now_paused now_ended
       now_readyState fresh carries kind date_now element app].

Ltac fields :=
  cbn [fst snd dom detectedFps fpsDetectionComplete lastUpdateTime lastSeekTo
       frameCount startTime seekOnMetadata startDetection countFrameRequested
       tickRequested with_dom with_video observe
       set_detectedFps set_fpsDetectionComplete set_lastUpdateTime
       set_lastSeekTo set_frameCount set_startTime set_seekOnMetadata
       set_startDetection set_countFrameRequested set_tickRequested
       set_src set_autoplay set_loop set_currentTime set_maxHeight
       set_container_height set_info
       video container_style_height info_textContent
       src autoplay loop currentTime duration paused ended readyState
       style_maxHeight state_of current_time frame_number state_duration fps
       is_playing now_currentTime now_duration now_paused now_ended
       now_readyState fresh carries on_snapshot] in *.

(** Unfolds a handler into its branches. *)
Ltac open_step :=
  first
    [ rewrite andThen_eq
    | progress fields_in_goal
    | match goal with
      | |- context [match ?x with _ => _ end] => destruct x eqn:?
      end ].

Ltac open_handler :=
  unfold component, applyConfiguration, detectFps, dispatch, listeners,
    handleSeek, tick, countFrame, onFirstPlay, deferredSeek,
    startPlaybackUpdates, modify, skip, emit, updateState;
  repeat open_step.

(** *** Every snapshot is built by [state_of] *)

Lemma dispatch_emits_state_of e i :
  Forall (fun s => s = state_of (fst (dispatch e i)))
         (snapshots (snd (dispatch e i))).
Proof.
  destruct e as [k now r].
  destruct k; open_handler; cbn [snapshots]; repeat constructor.
Qed.

Lemma component_emits_state_of supported data now page :
  snapshots (snd (component supported data now page))
  = [state_of (fst (component supported data now page))].
Proof.
  destruct data as [d|]; destruct supported; open_handler;
    cbn [snapshots]; try discriminate; reflexivity.
Qed.

Lemma forced_dispatch_snapshot e i :
  forced_kind (kind e) = true ->
  snapshots (snd (dispatch e i)) = [state_of (fst (dispatch e i))].
Proof.
  destruct e as [k now r]. destruct k; cbn [kind forced_kind];
    try discriminate; intros _; open_handler;
    cbn [snapshots negb andb] in *; try discriminate; reflexivity.
Qed.

(** C1.  The snapshot [updateState] builds carries the rate the instance has
    at that moment and the floor of the element's position times that rate;
    when the position is a number (not NaN), that is the floor of the
    snapshot's own [current_time] times its own [fps].  A call emits exactly
    this snapshot; whatever an event emits is this snapshot, and a
    metadata-loaded, play, pause, seeked or ended event emits exactly one; so
    the law holds of every snapshot of a call and of every event after it.
    With [currentTime = 2.5] and a detected rate of 24 the forced emission
    carries frame number 60. *)
Theorem C1_frame_number_is_floor :
  (forall i,
     fps (state_of i) = detectedFps i
     /\ frame_number (state_of i)
        = Math_floor (currentTime (video (dom i)) * detectedFps i)%float
     /\ (is_nan (currentTime (video (dom i))) = false ->
         frame_law (state_of i)))
  /\
  (forall supported data now page,
     let c := component supported data now page in
     snapshots (snd c) = [state_of (fst c)]
     /\ (is_nan (currentTime (video (dom (fst c)))) = false ->
         Forall frame_law (snapshots (snd c))))
  /\
  (forall e i,
     Forall (fun s => s = state_of (fst (dispatch e i)))
            (snapshots (snd (dispatch e i)))
     /\ (forced_kind (kind e) = true ->
         snapshots (snd (dispatch e i)) = [state_of (fst (dispatch e i))])
     /\ (is_nan (currentTime (video (dom (fst (dispatch e i))))) = false ->
         Forall frame_law (snapshots (snd (dispatch e i)))))
  /\
  (forall now i,
     detectedFps i = 24%float ->
     currentTime (video (dom i)) = 2.5%float ->
     exists s,
       snd (updateState true now i) = [SetStateValue "state" s]
       /\ current_time s = 2.5%float
       /\ fps s = 24%float
       /\ frame_number s = 60%float).
Proof.
  split; [|split; [|split]].
  - intros i. split; [reflexivity|]. split; [reflexivity|].
    apply state_of_frame_law.
  - intros supported data now page. cbv zeta.
    rewrite component_emits_state_of. split; [reflexivity|].
    intros Hn. constructor; [now apply state_of_frame_law | constructor].
  - intros e i. split; [apply dispatch_emits_state_of|].
    split; [apply forced_dispatch_snapshot|].
    intros Hn. eapply Forall_impl; [|apply dispatch_emits_state_of].
    intros s ->. now apply state_of_frame_law.
  - intros now i Hf Ht.
    destruct (updateState_cases true now i) as [[C _]|[_ [Eo _]]];
      [discriminate C|].
    exists (state_of i). split; [exact Eo|].
    unfold state_of, getCurrentFrame.
    cbn [current_time fps frame_number]. rewrite Hf, Ht.
    repeat split; reflexivity.
Qed.

(** *** The throttle *)

Lemma dispatch_clock e i :
  (emitted (snd (dispatch e i)) = false
   /\ lastUpdateTime (fst (dispatch e i)) = lastUpdateTime i)
  \/
  (emitted (snd (dispatch e i)) = true
   /\ lastUpdateTime (fst (dispatch e i)) = date_now e
   /\ (throttled_kind (kind e) = true ->
       lastUpdateTime i + UPDATE_THROTTLE_MS <= date_now e)).
Proof.
  destruct e as [k now r]. unfold UPDATE_THROTTLE_MS.
  destruct k; open_handler;
    cbn [kind date_now throttled_kind andb negb] in *;
    try (left; split; reflexivity);
    try (right; split; [reflexivity|]; split; [reflexivity|]);
    try discriminate;
    intros _;
    repeat match goal with
           | H : (_ <? _) = false |- _ => apply Z.ltb_ge in H
           end;
    unfold UPDATE_THROTTLE_MS in *; simpl in *; lia.
Qed.

Lemma later_emissions_wait evs : forall i,
  Forall (fun e => lastUpdateTime i <= date_now e) evs ->
  chronological evs ->
  Forall (fun t => lastUpdateTime i + UPDATE_THROTTLE_MS <= t)
         (nonforced_emissions i evs).
Proof.
  unfold chronological.
  induction evs as [|e rest IH]; intros i Hge Hs; simpl; [constructor|].
  inversion Hge as [|? ? Hge1 Hge2]; subst.
  inversion Hs as [|? ? Hs1 Hs2]; subst.
  assert (Hrest : Forall (fun t => lastUpdateTime i + UPDATE_THROTTLE_MS <= t)
            (nonforced_emissions (fst (dispatch e i)) rest)).
  { destruct (dispatch_clock e i) as [[_ Hl]|[_ [Hl _]]].
    - rewrite <- Hl. apply IH; [now rewrite Hl | assumption].
    - assert (H : Forall (fun t => date_now e + UPDATE_THROTTLE_MS <= t)
                    (nonforced_emissions (fst (dispatch e i)) rest)).
      { rewrite <- Hl. apply IH; [|assumption]. rewrite Hl.
        rewrite Forall_map in Hs2. exact Hs2. }
      eapply Forall_impl; [|exact H]. simpl. intros; lia. }
  apply Forall_app. split; [|assumption].
  destruct (throttled_kind (kind e)) eqn:Hk; simpl; [|constructor].
  destruct (dispatch_clock e i) as [[He _]|[He [_ Hw]]];
    rewrite He; constructor; [auto | constructor].
Qed.

Lemma nonforced_emissions_spaced evs : forall i,
  chronological evs -> spaced (nonforced_emissions i evs).
Proof.
  unfold chronological, spaced.
  induction evs as [|e rest IH]; intros i Hs; simpl; [constructor|].
  inversion Hs as [|? ? Hs1 Hs2]; subst.
  destruct (throttled_kind (kind e) && emitted (snd (dispatch e i))) eqn:Hc;
    simpl; [|now apply IH].
  constructor; [now apply IH|].
  apply andb_true_iff in Hc. destruct Hc as [_ He].
  destruct (dispatch_clock e i) as [[He' _]|[_ [Hl _]]]; [congruence|].
  rewrite <- Hl. apply later_emissions_wait; [|assumption].
  rewrite Hl. rewrite Forall_map in Hs2. exact Hs2.
Qed.

Lemma spaced_filter f ts : spaced ts -> spaced (filter f ts).
Proof.
  unfold spaced. induction 1 as [|t ts Hs IH Ht]; simpl; [constructor|].
  destruct (f t); [|assumption].
  constructor; [assumption|].
  apply Forall_forall. intros x Hx. apply filter_In in Hx.
  rewrite Forall_forall in Ht. now apply Ht.
Qed.

Lemma spaced_span ts : forall t hi,
  spaced (t :: ts) -> Forall (fun x => x <= hi) (t :: ts) ->
  t + UPDATE_THROTTLE_MS * Z.of_nat (List.length ts) <= hi.
Proof.
  unfold spaced, UPDATE_THROTTLE_MS.
  induction ts as [|u ts IH]; intros t hi Hs Hb.
  - inversion Hb; subst. simpl. lia.
  - inversion Hs as [|? ? Hs1 Hs2]; subst.
    inversion Hs2 as [|? ? Hu _]; subst.
    inversion Hb as [|? ? _ Hb']; subst.
    specialize (IH u hi Hs1 Hb'). simpl List.length. lia.
Qed.

Lemma spaced_count ts a W :
  spaced ts -> 0 <= W ->
  Z.of_nat (List.length (filter (in_window a W) ts)) <= W / UPDATE_THROTTLE_MS + 1.
Proof.
  intros Hs HW. apply (spaced_filter (in_window a W)) in Hs.
  assert (Hin : Forall (fun x => a <= x /\ x <= a + W)
                  (filter (in_window a W) ts)).
  { apply Forall_forall. intros x Hx. apply filter_In in Hx.
    destruct Hx as [_ Hx]. unfold in_window in Hx.
    apply andb_true_iff in Hx. lia. }
  unfold UPDATE_THROTTLE_MS in *.
  destruct (filter (in_window a W) ts) as [|t ts'].
  - simpl. pose proof (Z.div_pos W 250 HW). lia.
  - pose proof (@spaced_span ts' t (a + W) Hs) as Hspan.
    unfold UPDATE_THROTTLE_MS in Hspan.
    assert (Hhi : Forall (fun x => x <= a + W) (t :: ts')).
    { eapply Forall_impl; [|exact Hin]. simpl. intros; lia. }
    specialize (Hspan Hhi). inversion Hin as [|? ? Ht _]; subst.
    assert (250 * Z.of_nat (List.length ts') <= W) by lia.
    assert (Z.of_nat (List.length ts') <= W / 250).
    { apply Z.div_le_lower_bound; lia. }
    simpl List.length. lia.
Qed.

(** C2.  A non-forced [updateState] less than 250 ms after the recorded
    emission time returns the state it was given and emits nothing; otherwise
    it emits one snapshot and records the clock.  In a run whose clock never
    goes back, the non-forced emissions that fall in a window of [W] ms are at
    most [W / 250 + 1]. *)
Theorem C2_throttle_bounds_nonforced_emissions :
  (forall now i,
     now - lastUpdateTime i < UPDATE_THROTTLE_MS ->
     updateState false now i = (i, []))
  /\
  (forall now i,
     UPDATE_THROTTLE_MS <= now - lastUpdateTime i ->
     snd (updateState false now i) = [SetStateValue "state" (state_of i)]
     /\ lastUpdateTime (fst (updateState false now i)) = now)
  /\
  (forall i evs a W,
     chronological evs -> 0 <= W ->
     Z.of_nat (List.length (filter (in_window a W) (nonforced_emissions i evs)))
     <= W / 250 + 1).
Proof.
  split; [|split].
  - intros now i H.
    destruct (updateState_cases false now i) as [[_ E]|[C _]]; [exact E|].
    simpl in C. apply Z.ltb_ge in C. lia.
  - intros now i H.
    destruct (updateState_cases false now i) as [[C _]|[_ [Eo Ei]]].
    + simpl in C. apply Z.ltb_lt in C. lia.
    + rewrite Eo, Ei. split; reflexivity.
  - intros i evs a W Hc HW.
    apply (spaced_count a (nonforced_emissions_spaced i Hc) HW).
Qed.

Lemma C2_throttle_witness :
  let i := fst Scenarios.first_call in
  (900 - lastUpdateTime i < UPDATE_THROTTLE_MS
   /\ updateState false 900 i = (i, []))
  /\
  (UPDATE_THROTTLE_MS <= 1000 - lastUpdateTime i
   /\ lastUpdateTime (fst (updateState false 1000 i)) = 1000)
  /\
  (chronological Scenarios.fast_updates /\ 0 <= 300
   /\ Z.of_nat (List.length (filter (in_window 1000 300)
                  (nonforced_emissions i Scenarios.fast_updates)))
      <= 300 / 250 + 1).
Proof.
  assert (Hc : chronological Scenarios.fast_updates).
  { unfold chronological. simpl. repeat constructor; lia. }
  assert (H1 : 900 - lastUpdateTime (fst Scenarios.first_call)
               < UPDATE_THROTTLE_MS) by reflexivity.
  assert (H2 : UPDATE_THROTTLE_MS
               <= 1000 - lastUpdateTime (fst Scenarios.first_call)).
  { vm_compute. discriminate. }
  assert (H3 : 0 <= 300) by lia.
  destruct C2_throttle_bounds_nonforced_emissions as [T1 [T2 T3]].
  cbv zeta. split; [|split].
  - split; [exact H1 | exact (T1 900 _ H1)].
  - split; [exact H2 | exact (proj2 (T2 1000 _ H2))].
  - split; [exact Hc|]. split; [exact H3|].
    exact (T3 (fst Scenarios.first_call) _ 1000 300 Hc H3).
Defined.

(** In that run the time updates at 1000 and 1300 emit, the others do not:
    the window from 1000 to 1300 holds as many emissions as the bound allows. *)
Example fast_updates_emissions :
  nonforced_emissions (fst Scenarios.first_call) Scenarios.fast_updates
  = [1000; 1300].
Proof. vm_compute. reflexivity. Qed.

Lemma forced_dispatch_clock e i :
  forced_kind (kind e) = true ->
  emitted (snd (dispatch e i)) = true
  /\ lastUpdateTime (fst (dispatch e i)) = date_now e.
Proof.
  destruct e as [k now r].
  destruct k; cbn [kind forced_kind]; try discriminate; intros _;
    open_handler; cbn [negb andb] in *; try discriminate;
    split; reflexivity.
Qed.

Lemma throttled_dispatch_skips e i :
  throttled_kind (kind e) = true ->
  date_now e - lastUpdateTime i < UPDATE_THROTTLE_MS ->
  snd (dispatch e i) = []
  /\ lastUpdateTime (fst (dispatch e i)) = lastUpdateTime i.
Proof.
  destruct e as [k now r].
  destruct k; cbn [kind date_now throttled_kind]; try discriminate;
    intros _ Hlt; open_handler; try (split; reflexivity);
    exfalso;
    repeat match goal with
           | H : (_ <? _) = false |- _ => apply Z.ltb_ge in H
           end;
    cbn [negb andb] in *; simpl in *; lia.
Qed.

(** C10.  A forced [updateState] records the clock too: the non-forced calls
    of the next 250 ms are no-ops.  The same at the level of events: after an
    event that forces an emission, a time update or animation frame less than
    250 ms later emits nothing and leaves the recorded time alone. *)
Theorem C10_forced_emission_restarts_throttle :
  (forall now i,
     let i1 := fst (updateState true now i) in
     snd (updateState true now i) = [SetStateValue "state" (state_of i)]
     /\ lastUpdateTime i1 = now
     /\ forall now',
          now' - now < UPDATE_THROTTLE_MS ->
          updateState false now' i1 = (i1, []))
  /\
  (forall e e' i,
     forced_kind (kind e) = true ->
     throttled_kind (kind e') = true ->
     date_now e' - date_now e < UPDATE_THROTTLE_MS ->
     let i1 := fst (dispatch e i) in
     emitted (snd (dispatch e i)) = true
     /\ snd (dispatch e' i1) = []
     /\ lastUpdateTime (fst (dispatch e' i1)) = date_now e).
Proof.
  split.
  - intros now i. cbv zeta.
    destruct (updateState_cases true now i) as [[C _]|[_ [Eo Ei]]];
      [discriminate C|].
    rewrite Eo, Ei. split; [reflexivity|]. split; [reflexivity|].
    intros now' Hlt.
    match goal with
    | |- updateState false now' ?j = _ =>
        destruct (updateState_cases false now' j) as [[_ E]|[C _]];
          [exact E|]
    end.
    simpl in C. apply Z.ltb_ge in C. unfold UPDATE_THROTTLE_MS in *. lia.
  - intros e e' i Hf Ht Hlt. cbv zeta.
    destruct (forced_dispatch_clock e i Hf) as [He Hl].
    split; [exact He|].
    destruct (@throttled_dispatch_skips e' (fst (dispatch e i)) Ht) as [Ho Hl'].
    + now rewrite Hl.
    + split; [exact Ho | congruence].
Qed.

Lemma C10_forced_emission_witness :
  let i := fst Scenarios.first_call in
  let i1 := fst (updateState true 5000 i) in
  (5100 - 5000 < UPDATE_THROTTLE_MS /\ updateState false 5100 i1 = (i1, []))
  /\
  (let e := Scenarios.event Pause 5000 3 false in
   let e' := Scenarios.event TimeUpdate 5100 3 false in
   forced_kind (kind e) = true /\ throttled_kind (kind e') = true
   /\ date_now e' - date_now e < UPDATE_THROTTLE_MS
   /\ snd (dispatch e' (fst (dispatch e i))) = []).
Proof.
  assert (H1 : 5100 - 5000 < UPDATE_THROTTLE_MS) by reflexivity.
  destruct C10_forced_emission_restarts_throttle as [T1 T2].
  cbv zeta. split.
  - split; [exact H1|].
    exact (proj2 (proj2 (T1 5000 (fst Scenarios.first_call))) 5100 H1).
  - split; [reflexivity|]. split; [reflexivity|]. split; [exact H1|].
    exact (proj1 (proj2 (T2 (Scenarios.event Pause 5000 3 false)
                            (Scenarios.event TimeUpdate 5100 3 false)
                            (fst Scenarios.first_call)
                            eq_refl eq_refl H1))).
Defined.

(** *** The estimator *)

Lemma dispatch_disabled e :
  triple disabled (dispatch e) disabled (carries 30%float).
Proof.
  intros i [H1 [H2 [H3 H4]]]. unfold disabled.
  destruct e as [k now r].
  destruct k; open_handler; fields;
    try congruence; (split; [auto | repeat constructor; fields; auto]).
Qed.

Lemma dispatch_converged r e :
  triple (converged_at r) (dispatch e) (converged_at r) (carries r).
Proof.
  intros i [H1 [H2 [H3 H4]]]. unfold converged_at.
  destruct e as [k now rd].
  destruct k; open_handler; fields;
    try congruence; (split; [auto | repeat constructor; fields; auto]).
Qed.

Lemma dispatch_estimator_ok e i :
  estimator_ok i -> estimator_ok (fst (dispatch e i)).
Proof.
  intros [H1 [H2 H3]]. unfold estimator_ok.
  destruct e as [k now r].
  destruct k; open_handler; fields;
    repeat split; intros; try congruence; auto;
    try (apply H2; congruence); try (apply H3; congruence);
    destruct (fpsDetectionComplete i), (startDetection i),
      (countFrameRequested i);
    cbn [negb] in *; intuition congruence.
Qed.

Lemma component_estimator supported data now page :
  let c := component supported data now page in
  fpsDetectionComplete (fst c) = false /\ detectedFps (fst c) = 30%float
  /\ startDetection (fst c) = supported /\ countFrameRequested (fst c) = false
  /\ Forall (carries 30%float) (snd c).
Proof.
  cbv zeta. destruct data as [d|]; destruct supported; open_handler; fields;
    repeat split; repeat constructor.
Qed.

Lemma dispatch_complete_mono e i :
  fpsDetectionComplete i = true ->
  fpsDetectionComplete (fst (dispatch e i)) = true.
Proof.
  intros H. destruct e as [k now r].
  destruct k; open_handler; fields; congruence.
Qed.

Lemma exec_complete_mono evs : forall i,
  fpsDetectionComplete i = true -> fpsDetectionComplete (exec i evs) = true.
Proof.
  unfold exec. induction evs as [|e rest IH]; intros i H; simpl; [exact H|].
  pose proof (dispatch_complete_mono e i H) as H1.
  destruct (dispatch e i) as [i1 o1]. simpl in H1.
  specialize (IH i1 H1). now destruct (run i1 rest).
Qed.

Lemma exec_estimator_ok evs : forall i,
  estimator_ok i -> estimator_ok (exec i evs).
Proof.
  unfold exec. induction evs as [|e rest IH]; intros i H; simpl; [exact H|].
  pose proof (dispatch_estimator_ok e H) as H1.
  destruct (dispatch e i) as [i1 o1]. simpl in H1.
  specialize (IH i1 H1). now destruct (run i1 rest).
Qed.

(** While the session has not converged, a dispatch emits the fallback rate. *)
Lemma dispatch_before_convergence e i :
  estimator_ok i ->
  fpsDetectionComplete (fst (dispatch e i)) = false ->
  Forall (carries 30%float) (snd (dispatch e i)).
Proof.
  intros [H1 [H2 H3]]. destruct e as [k now r].
  destruct k; open_handler; fields; intros Hc;
    try discriminate; repeat constructor; fields; auto.
Qed.

Lemma run_before_convergence evs : forall i,
  estimator_ok i ->
  fpsDetectionComplete (exec i evs) = false ->
  Forall (carries 30%float) (outputs i evs).
Proof.
  unfold exec, outputs.
  induction evs as [|e rest IH]; intros i Hok Hc; simpl; [constructor|].
  pose proof (dispatch_estimator_ok e Hok) as Hok1.
  pose proof (@dispatch_before_convergence e i Hok) as Hstep.
  pose proof (@exec_complete_mono rest (fst (dispatch e i))) as Hmono.
  unfold exec in Hmono. simpl in Hc.
  destruct (dispatch e i) as [i1 o1]. simpl in *.
  specialize (IH i1 Hok1).
  destruct (run i1 rest) as [i2 o2]. simpl in *.
  apply Forall_app. split; [|auto].
  apply Hstep. destruct (fpsDetectionComplete i1); [|reflexivity].
  rewrite Hmono in Hc; [discriminate | reflexivity].
Qed.

Lemma carries_no_convergence r os :
  Forall (carries r) os -> convergences os = O.
Proof.
  induction 1 as [|o os Ho _ IH]; simpl; [reflexivity|].
  destruct o as [k s|m|t]; try assumption. destruct m; [assumption|].
  destruct Ho.
Qed.

Lemma carries_snapshots r os :
  Forall (carries r) os -> Forall (fun s => fps s = r) (snapshots os).
Proof.
  induction 1 as [|o os Ho _ IH]; simpl; [constructor|].
  destruct o; simpl in *; auto.
Qed.

Lemma convergences_app a b :
  convergences (a ++ b) = (convergences a + convergences b)%nat.
Proof.
  induction a as [|o a IH]; simpl; [reflexivity|].
  destruct o as [k s|m|t]; try assumption. destruct m; simpl; now rewrite ?IH.
Qed.

Lemma dispatch_convergences e i :
  (convergences (snd (dispatch e i)) <= 1)%nat.
Proof.
  destruct e as [k now r].
  destruct k; open_handler; cbn [convergences]; auto.
Qed.

Lemma run_converged r evs i :
  converged_at r i ->
  converged_at r (exec i evs) /\ Forall (carries r) (outputs i evs).
Proof.
  intros H.
  apply (run_triple (Inv := converged_at r) (Q := carries r)
           (ok := fun _ => True)); auto.
  - intros e _. apply dispatch_converged.
  - apply Forall_forall. auto.
Qed.

Lemma run_convergences evs : forall i,
  estimator_ok i -> (convergences (outputs i evs) <= 1)%nat.
Proof.
  unfold outputs.
  induction evs as [|e rest IH]; intros i Hok; simpl; [auto|].
  pose proof (dispatch_estimator_ok e Hok) as Hok1.
  pose proof (@dispatch_before_convergence e i Hok) as Hstep.
  pose proof (dispatch_convergences e i) as Hle.
  destruct (dispatch e i) as [i1 o1] eqn:E. simpl in *.
  specialize (IH i1 Hok1).
  destruct (fpsDetectionComplete i1) eqn:Hc.
  - assert (Hconv : converged_at (detectedFps i1) i1).
    { destruct Hok1 as [_ [H2 _]]. destruct (H2 Hc). now repeat split. }
    destruct (run_converged rest Hconv) as [_ Hq].
    apply carries_no_convergence in Hq. unfold outputs in Hq.
    destruct (run i1 rest) as [i2 o2]. simpl in *.
    rewrite convergences_app, Hq. lia.
  - specialize (Hstep eq_refl). apply carries_no_convergence in Hstep.
    destruct (run i1 rest) as [i2 o2]. simpl in *.
    rewrite convergences_app, Hstep. lia.
Qed.

Lemma play_arms_once e i :
  kind e = Play ->
  let i1 := fst (dispatch e i) in
  startDetection i1 = false
  /\ countFrameRequested i1 =
       (if startDetection i && negb (fpsDetectionComplete i)
        then true else countFrameRequested i)
  /\ frameCount i1 = frameCount i /\ startTime i1 = startTime i.
Proof.
  destruct e as [k now r]. cbn [kind]. intros ->. cbv zeta.
  open_handler; fields; try discriminate;
    destruct (startDetection i), (fpsDetectionComplete i);
    cbn [negb andb] in *; try discriminate; repeat split.
Qed.

Lemma convergence_step i t wall rd start :
  countFrameRequested i = true ->
  startTime i = Some start ->
  (SAMPLE_DURATION_MS <=? t - start)%float = true ->
  let d := dispatch (mkEvent (VideoFrame t) wall rd) i in
  let rate :=
    Math_round ((frameCount i + 1) / ((t - start) / 1000))%float in
  detectedFps (fst d) = rate
  /\ fpsDetectionComplete (fst d) = true
  /\ countFrameRequested (fst d) = false
  /\ snd d = [ConsoleLog (DetectedFPS rate);
              SetStateValue "state" (state_of (fst d))].
Proof.
  intros Hreq Hs Hle. cbv zeta. destruct i as [p f c lu ls n st sm sd rq tk].
  cbn in Hreq, Hs. subst rq st.
  unfold dispatch, listeners. cbn [kind date_now element].
  rewrite andThen_eq. unfold modify, countFrame. fields. rewrite Hle.
  rewrite andThen_eq. unfold emit, updateState. fields. cbn [negb andb app].
  fields. repeat split.
Qed.

(** C4.  A call with the frame callback available arms the sampler for the
    first play event only.  A frame callback that finds 1000 ms or more elapsed
    since the first one sets the rate to
    [round(frame_count / elapsed_seconds)], marks the session complete, asks
    for no further frame, and emits the message and exactly one snapshot, which
    carries the new rate.  As long as a run has not converged all its
    snapshots carry 30.  Once it has, whatever events follow (play events
    included), the rate stays, every snapshot carries it and no rate is
    announced again; a run announces a rate at most once. *)
Theorem C4_fps_detection_converges_once :
  forall data now page,
    let i0 := fst (component true data now page) in
    let o0 := snd (component true data now page) in
    (startDetection i0 = true /\ countFrameRequested i0 = false
     /\ fpsDetectionComplete i0 = false)
    /\
    (forall e i,
       kind e = Play ->
       startDetection (fst (dispatch e i)) = false
       /\ countFrameRequested (fst (dispatch e i)) =
            (if startDetection i && negb (fpsDetectionComplete i)
             then true else countFrameRequested i))
    /\
    (forall i t wall rd start,
       countFrameRequested i = true ->
       startTime i = Some start ->
       (SAMPLE_DURATION_MS <=? t - start)%float = true ->
       let d := dispatch (mkEvent (VideoFrame t) wall rd) i in
       let rate :=
         Math_round ((frameCount i + 1) / ((t - start) / 1000))%float in
       detectedFps (fst d) = rate
       /\ fpsDetectionComplete (fst d) = true
       /\ countFrameRequested (fst d) = false
       /\ snd d = [ConsoleLog (DetectedFPS rate);
                   SetStateValue "state" (state_of (fst d))]
       /\ fps (state_of (fst d)) = rate)
    /\
    (forall evs,
       fpsDetectionComplete (exec i0 evs) = false ->
       Forall (fun s => fps s = 30%float) (snapshots (o0 ++ outputs i0 evs)))
    /\
    (forall evs evs',
       fpsDetectionComplete (exec i0 evs) = true ->
       let i := exec i0 evs in
       Forall (carries (detectedFps i)) (outputs i evs')
       /\ converged_at (detectedFps i) (exec i evs'))
    /\
    (forall evs, (convergences (o0 ++ outputs i0 evs) <= 1)%nat).
Proof.
  intros data now page. cbv zeta.
  destruct (component_estimator true data now page) as [E1 [E2 [E3 [E4 E5]]]].
  assert (Hok : estimator_ok (fst (component true data now page))).
  { unfold estimator_ok. rewrite E1, E3, E4. repeat split; congruence. }
  split; [now repeat split|]. split; [|split; [|split; [|split]]].
  - intros e i Hk. destruct (play_arms_once e i Hk) as [H1 [H2 _]]. now split.
  - intros i t wall rd start Hreq Hs Hle.
    destruct (@convergence_step i t wall rd start Hreq Hs Hle)
      as [H1 [H2 [H3 H4]]].
    repeat split; try assumption.
  - intros evs Hc. rewrite snapshots_app. apply Forall_app. split.
    + now apply carries_snapshots.
    + apply carries_snapshots. now apply run_before_convergence.
  - intros evs evs' Hc.
    pose proof (exec_estimator_ok evs Hok) as [_ [H2 _]].
    destruct (H2 Hc) as [H3 H4].
    assert (Hconv : converged_at
                      (detectedFps (exec (fst (component true data now page)) evs))
                      (exec (fst (component true data now page)) evs))
      by now repeat split.
    destruct (run_converged evs' Hconv). now split.
  - intros evs. rewrite convergences_app.
    rewrite (carries_no_convergence E5). simpl. now apply run_convergences.
Qed.

Lemma C4_fps_detection_witness :
  let i0 := fst Scenarios.first_call in
  let i := exec i0 Scenarios.slow_sampling in
  let d := dispatch Scenarios.fourth_frame i in
  (countFrameRequested i = true /\ startTime i = Some 0%float
   /\ (SAMPLE_DURATION_MS <=? 1200 - 0)%float = true
   /\ detectedFps (fst d) = 3%float
   /\ snd d = [ConsoleLog (DetectedFPS 3%float);
               SetStateValue "state" (state_of (fst d))])
  /\
  (fpsDetectionComplete i = false
   /\ Forall (fun s => fps s = 30%float)
        (snapshots (snd Scenarios.first_call
                    ++ outputs i0 Scenarios.slow_sampling)))
  /\
  (fpsDetectionComplete (exec i0 (Scenarios.slow_sampling
                                  ++ [Scenarios.fourth_frame])) = true
   /\ Forall (carries 3%float)
        (outputs (exec i0 (Scenarios.slow_sampling ++ [Scenarios.fourth_frame]))
                 Scenarios.slow_sampling)).
Proof.
  pose proof (C4_fps_detection_converges_once
                (Some (Scenarios.request JNull false false)) 700
                Scenarios.loaded_page) as T.
  cbv zeta in T. destruct T as [_ [_ [T3 [T4 [T5 _]]]]].
  cbv zeta. split; [|split].
  - assert (H1 : countFrameRequested
                   (exec (fst Scenarios.first_call) Scenarios.slow_sampling)
                 = true) by reflexivity.
    assert (H2 : startTime
                   (exec (fst Scenarios.first_call) Scenarios.slow_sampling)
                 = Some 0%float) by reflexivity.
    assert (H3 : (SAMPLE_DURATION_MS <=? 1200 - 0)%float = true)
      by reflexivity.
    destruct (T3 _ 1200%float 3201 (Scenarios.at_time 1.25 true) 0%float
                H1 H2 H3) as [R1 [_ [_ [R4 _]]]].
    split; [exact H1|]. split; [exact H2|]. split; [exact H3|].
    split; [exact R1 | exact R4].
  - assert (H : fpsDetectionComplete
                  (exec (fst Scenarios.first_call) Scenarios.slow_sampling)
                = false) by reflexivity.
    split; [exact H | exact (T4 Scenarios.slow_sampling H)].
  - assert (H : fpsDetectionComplete
                  (exec (fst Scenarios.first_call)
                     (Scenarios.slow_sampling ++ [Scenarios.fourth_frame]))
                = true) by reflexivity.
    split; [exact H|].
    exact (proj1 (T5 (Scenarios.slow_sampling ++ [Scenarios.fourth_frame])
                     Scenarios.slow_sampling H)).
Defined.

(** A clip shown at 24 frames in the sampling second is detected as 24, and
    the snapshot forced at convergence, at position 2.5 s, has frame 60. *)
Example one_second_of_frames_detects_24 :
  let r := run (fst Scenarios.first_call) Scenarios.one_second_of_frames in
  detectedFps (fst r) = 24%float
  /\ map frame_number (snapshots (snd r)) = [53%float; 60%float]
  /\ map fps (snapshots (snd r)) = [30%float; 24%float].
Proof. vm_compute. repeat split. Qed.

(** The arithmetic is that of doubles.  [0.7 * 30] floors to 21.  Frames at
    0.7 ms and 2000.7 ms with 49 counted give [round(24.5) = 25]; frames at
    1.4 ms and 1001.4 ms are 1000 ms apart and end the sampling; two frames
    counted between 0.3 ms and 4000.3 ms give [round(0.5) = 1].  A tie goes
    up, and what rounds to zero from below is [-0]. *)
Example rates_are_computed_in_doubles :
  Math_floor (0x1.6666666666666p-1 * 30)%float = 21%float
  /\ Math_round
       (49 / ((0x1.f42cccccccccdp+10 - 0x1.6666666666666p-1) / 1000))%float
     = 25%float
  /\ (SAMPLE_DURATION_MS
      <=? 0x1.f4b3333333333p+9 - 0x1.6666666666666p+0)%float = true
  /\ Math_round
       (2 / ((0x1.f40999999999ap+11 - 0x1.3333333333333p-2) / 1000))%float
     = 1%float
  /\ Math_round 2.5 = 3%float
  /\ Math_round (-2.5) = (-2)%float
  /\ Math_round (-0.5) = (-0)%float
  /\ Math_round 0x1.fffffffffffffp-2 = 0%float
  /\ Math_floor (-0.5) = (-1)%float.
Proof. repeat split; reflexivity. Qed.

(** C5.  Without [requestVideoFrameCallback] the call completes: it logs the
    fallback notice and makes its initial emission.  In the whole run that
    follows every snapshot carries 30, no rate is ever announced, and the
    session never starts. *)
Theorem C5_no_frame_callback_keeps_fallback :
  forall data now page evs,
    let i0 := fst (component false data now page) in
    let o0 := snd (component false data now page) in
    In (ConsoleLog NotSupported) o0
    /\ (exists s, snapshots o0 = [s])
    /\ Forall (fun s => fps s = 30%float) (snapshots (o0 ++ outputs i0 evs))
    /\ convergences (o0 ++ outputs i0 evs) = O
    /\ disabled (exec i0 evs).
Proof.
  intros data now page evs. cbv zeta.
  destruct (component_estimator false data now page) as [E1 [E2 [E3 [E4 E5]]]].
  assert (Hd : disabled (fst (component false data now page)))
    by now repeat split.
  destruct (run_triple (Inv := disabled) (Q := carries 30%float)
              (ok := fun _ => True) (fun e _ => dispatch_disabled e)
              (evs := evs) (proj2 (Forall_forall _ _) (fun _ _ => I))
              _ Hd) as [Hd' Hq].
  assert (Hall : Forall (carries 30%float)
                   (snd (component false data now page)
                    ++ outputs (fst (component false data now page)) evs)).
  { apply Forall_app. now split. }
  split; [|split; [|split; [|split]]].
  - destruct data as [d|]; open_handler; simpl; auto.
  - destruct data as [d|]; open_handler; cbn [snapshots];
      try discriminate; eexists; reflexivity.
  - now apply carries_snapshots.
  - now apply carries_no_convergence in Hall.
  - exact Hd'.
Qed.

(** *** The seek gate *)

Lemma assignments_app a b :
  assignments (a ++ b) = assignments a ++ assignments b.
Proof.
  induction a as [|o a IH]; simpl; [reflexivity|].
  destruct o; simpl; now rewrite ?IH.
Qed.

Lemma dispatch_no_pending_seek e i :
  seekOnMetadata i = None ->
  assignments (snd (dispatch e i)) = []
  /\ seekOnMetadata (fst (dispatch e i)) = None.
Proof.
  intros H. destruct i as [p f c lu ls n st sm sd rq tk]. cbn in H. subst sm.
  destruct e as [k now r].
  destruct k; open_handler; fields; try discriminate; split; reflexivity.
Qed.

Lemma dispatch_pending_seek e i t :
  seekOnMetadata i = Some t ->
  if is_LoadedMetadata e then
    exists s,
      snd (dispatch e i) = [AssignCurrentTime t; SetStateValue "state" s]
      /\ current_time s = or_zero t
      /\ currentTime (video (dom (fst (dispatch e i)))) = t
      /\ seekOnMetadata (fst (dispatch e i)) = None
  else
    assignments (snd (dispatch e i)) = []
    /\ seekOnMetadata (fst (dispatch e i)) = Some t.
Proof.
  intros H. destruct i as [p f c lu ls n st sm sd rq tk]. cbn in H. subst sm.
  destruct e as [k now r]. unfold is_LoadedMetadata. cbn [kind].
  destruct k; open_handler; fields; try discriminate;
    try (split; reflexivity).
  eexists. repeat split.
Qed.

Lemma run_no_pending_seek evs : forall i,
  seekOnMetadata i = None -> assignments (outputs i evs) = [].
Proof.
  unfold outputs. induction evs as [|e rest IH]; intros i H; simpl; [reflexivity|].
  destruct (dispatch_no_pending_seek e i H) as [H1 H2].
  destruct (dispatch e i) as [i1 o1]. simpl in *.
  specialize (IH i1 H2). destruct (run i1 rest) as [i2 o2]. simpl in *.
  now rewrite assignments_app, H1, IH.
Qed.

Lemma run_pending_seek evs : forall i t,
  seekOnMetadata i = Some t ->
  assignments (outputs i evs) =
  if existsb is_LoadedMetadata evs then [t] else [].
Proof.
  unfold outputs.
  induction evs as [|e rest IH]; intros i t H; simpl; [reflexivity|].
  pose proof (dispatch_pending_seek e i H) as Hstep.
  pose proof (@run_no_pending_seek rest (fst (dispatch e i))) as Hnone.
  unfold outputs in Hnone.
  destruct (dispatch e i) as [i1 o1]. simpl in *.
  specialize (IH i1 t).
  destruct (run i1 rest) as [i2 o2]. simpl in *.
  rewrite assignments_app.
  destruct (is_LoadedMetadata e); simpl.
  - destruct Hstep as [s [Ho [_ [_ Hs]]]]. rewrite Ho, (Hnone Hs). reflexivity.
  - destruct Hstep as [Ho Hs]. rewrite Ho, (IH Hs). reflexivity.
Qed.

Lemma component_seek supported d now page t :
  data_seek_to d = JNum t ->
  let c := component supported (Some d) now page in
  if 1 <=? readyState (video (applyFlags d page)) then
    assignments (snd c) = [t] /\ seekOnMetadata (fst c) = None
    /\ currentTime (video (dom (fst c))) = t
  else
    assignments (snd c) = [] /\ seekOnMetadata (fst c) = Some t
    /\ currentTime (video (dom (fst c))) =
         currentTime (video (applyFlags d page)).
Proof.
  intros Hd. cbv zeta. unfold component, applyConfiguration.
  rewrite !andThen_eq. unfold modify, handleSeek, seekAccepted. fields.
  rewrite Hd. cbn [strict_neq andb]. fields.
  destruct (1 <=? readyState (video (applyFlags d page))); fields;
    destruct supported; open_handler; try discriminate; repeat split.
Qed.

(** C6.  An accepted target is assigned at once when the element has its
    metadata ([readyState >= 1]).  Otherwise nothing is assigned and the
    target waits; the first ['loadedmetadata'] assigns it, ahead of the
    snapshot, and removes the listener.  Over a whole run, from the call that
    carries the target on, the position is assigned exactly once if the
    metadata was there or arrives, never twice, and not at all if it never
    arrives. *)
Theorem C6_seek_immediate_or_deferred_once :
  (forall t i,
     seekAccepted (JNum t) i = true ->
     let h := handleSeek (JNum t) i in
     if 1 <=? readyState (video (dom i)) then
       snd h = [AssignCurrentTime t]
       /\ currentTime (video (dom (fst h))) = t
       /\ seekOnMetadata (fst h) = seekOnMetadata i
     else
       snd h = []
       /\ currentTime (video (dom (fst h))) = currentTime (video (dom i))
       /\ seekOnMetadata (fst h) = Some t)
  /\
  (forall t i e,
     seekOnMetadata i = Some t ->
     is_LoadedMetadata e = true ->
     exists s,
       snd (dispatch e i) = [AssignCurrentTime t; SetStateValue "state" s]
       /\ current_time s = or_zero t
       /\ currentTime (video (dom (fst (dispatch e i)))) = t
       /\ seekOnMetadata (fst (dispatch e i)) = None)
  /\
  (forall supported d now page t evs,
     data_seek_to d = JNum t ->
     let c := component supported (Some d) now page in
     assignments (snd c ++ outputs (fst c) evs) =
     if (1 <=? readyState (video (applyFlags d page)))
        || existsb is_LoadedMetadata evs
     then [t] else []).
Proof.
  split; [|split].
  - intros t i Ha. cbv zeta. unfold handleSeek. rewrite Ha. fields.
    destruct (1 <=? readyState (video (dom i))); fields; repeat split.
  - intros t i e Hs He.
    pose proof (dispatch_pending_seek e i Hs) as H. now rewrite He in H.
  - intros supported d now page t evs Hd. cbv zeta.
    pose proof (@component_seek supported d now page t Hd) as H.
    cbv zeta in H. rewrite assignments_app.
    destruct (1 <=? readyState (video (applyFlags d page))).
    + destruct H as [H1 [H2 _]]. rewrite H1, (run_no_pending_seek evs _ H2).
      reflexivity.
    + destruct H as [H1 [H2 _]]. rewrite H1, (run_pending_seek evs _ H2).
      reflexivity.
Qed.

Lemma C6_seek_witness :
  (seekAccepted (JNum 7) (fresh Scenarios.loaded_page) = true
   /\ snd (handleSeek (JNum 7) (fresh Scenarios.loaded_page))
      = [AssignCurrentTime 7])
  /\
  (let i := fst (component true (Some Scenarios.seek_request) 700
                   Scenarios.blank_page) in
   seekOnMetadata i = Some 7%float
   /\ is_LoadedMetadata (Scenarios.event LoadedMetadata 900 0 false) = true
   /\ currentTime
        (video (dom (fst (dispatch (Scenarios.event LoadedMetadata 900 0 false)
                            i)))) = 7%float)
  /\
  (data_seek_to Scenarios.seek_request = JNum 7
   /\ assignments
        (snd (component true (Some Scenarios.seek_request) 700
                Scenarios.blank_page)
         ++ outputs (fst (component true (Some Scenarios.seek_request) 700
                            Scenarios.blank_page))
              Scenarios.metadata_arrives)
      = [7%float]).
Proof.
  destruct C6_seek_immediate_or_deferred_once as [T1 [T2 T3]].
  split; [|split].
  - split; [reflexivity|].
    exact (proj1 (T1 7%float (fresh Scenarios.loaded_page) eq_refl)).
  - cbv zeta. split; [reflexivity|]. split; [reflexivity|].
    destruct (T2 7%float _ (Scenarios.event LoadedMetadata 900 0 false)
                (eq_refl : seekOnMetadata
                             (fst (component true (Some Scenarios.seek_request)
                                     700 Scenarios.blank_page)) = Some 7%float)
                eq_refl) as [s [_ [_ [H _]]]].
    exact H.
  - split; [reflexivity|].
    exact (T3 true Scenarios.seek_request 700 Scenarios.blank_page 7%float
              Scenarios.metadata_arrives eq_refl).
Defined.

(** The guard, spelled out: a number that is not the recorded one. *)
Lemma seekAccepted_spec x i :
  seekAccepted x i = true <->
  exists t, x = JNum t /\
    match lastSeekTo i with
    | JNum u => (t =? u)%float = false
    | _ => True
    end.
Proof.
  unfold seekAccepted. destruct x as [| |t]; cbn [strict_neq andb].
  - split; [discriminate | intros [t [H _]]; discriminate].
  - split; [discriminate | intros [t [H _]]; discriminate].
  - destruct (lastSeekTo i) as [| |u]; cbn [strict_neq].
    + split; [intros _; now exists t | reflexivity].
    + split; [intros _; now exists t | reflexivity].
    + rewrite negb_true_iff. split.
      * intros H. exists t. now split.
      * intros [t' [E H]]. injection E as <-. exact H.
Qed.

(** Within one closure the guard does what it is there for: the target it
    has just acted on is refused. *)
Lemma handleSeek_same_closure t i :
  is_nan t = false ->
  handleSeek (JNum t) (fst (handleSeek (JNum t) i))
  = (fst (handleSeek (JNum t) i), []).
Proof.
  intros Hn.
  assert (Ht : (t =? t)%float = true).
  { unfold is_nan in Hn. now apply negb_false_iff in Hn. }
  assert (R : forall j, lastSeekTo j = JNum t ->
                        handleSeek (JNum t) j = (j, [])).
  { intros j Hj. unfold handleSeek, seekAccepted. rewrite Hj.
    cbn [strict_neq andb]. now rewrite Ht. }
  destruct (seekAccepted (JNum t) i) eqn:Ha.
  - apply R. unfold handleSeek. rewrite Ha.
    now destruct (1 <=? readyState (video (dom (set_lastSeekTo (JNum t) i)))).
  - assert (E : fst (handleSeek (JNum t) i) = i).
    { unfold handleSeek. now rewrite Ha. }
    rewrite E. unfold handleSeek. now rewrite Ha.
Qed.

(** C3 (what the code does with the same target sent twice).  Every call of
    the exported function starts from [lastSeekTo = null], so a numeric
    target is always accepted and, with metadata loaded, assigned: the second
    render with the target 10 moves the position from 3 s, where the user had
    put it, back to 10 s. *)
Theorem C3_same_target_seeks_again :
  (forall supported d now page t,
     data_seek_to d = JNum t ->
     1 <= readyState (video (applyFlags d page)) ->
     assignments (snd (component supported (Some d) now page)) = [t])
  /\
  (assignments (snd Scenarios.render_1) = [10%float]
   /\ lastSeekTo Scenarios.after_scrub = JNum 10
   /\ currentTime (video (dom Scenarios.after_scrub)) = 3%float
   /\ assignments (snd Scenarios.render_2) = [10%float]
   /\ currentTime (video (dom (fst Scenarios.render_2))) = 10%float).
Proof.
  split.
  - intros supported d now page t Hd Hr.
    pose proof (@component_seek supported d now page t Hd) as H.
    cbv zeta in H. apply Z.leb_le in Hr. rewrite Hr in H. exact (proj1 H).
  - vm_compute. repeat split.
Qed.

Lemma C3_same_target_witness :
  data_seek_to (Scenarios.request (JNum 10) false true) = JNum 10
  /\ 1 <= readyState (video (applyFlags (Scenarios.request (JNum 10) false true)
                                (dom Scenarios.after_scrub)))
  /\ assignments (snd Scenarios.render_2) = [10%float].
Proof.
  assert (H : 1 <= readyState
                     (video (applyFlags (Scenarios.request (JNum 10) false true)
                               (dom Scenarios.after_scrub)))).
  { vm_compute. discriminate. }
  split; [reflexivity|]. split; [exact H|].
  exact (proj1 C3_same_target_seeks_again true
           (Scenarios.request (JNum 10) false true) 2000
           (dom Scenarios.after_scrub) 10%float eq_refl H).
Defined.

Lemma C1_frame_number_witness :
  let i := exec (fst Scenarios.first_call) Scenarios.one_second_of_frames in
  (is_nan (currentTime (video (dom i))) = false
   /\ frame_law (state_of i))
  /\
  (detectedFps i = 24%float
   /\ currentTime (video (dom i)) = 2.5%float
   /\ exists s,
        snd (updateState true 3100 i) = [SetStateValue "state" s]
        /\ frame_number s = 60%float)
  /\
  (forced_kind (kind (Scenarios.event Pause 3200 2.5 false)) = true
   /\ snapshots (snd (dispatch (Scenarios.event Pause 3200 2.5 false) i))
      = [state_of (fst (dispatch (Scenarios.event Pause 3200 2.5 false) i))]).
Proof.
  destruct C1_frame_number_is_floor as [T1 [_ [T3 T4]]].
  assert (H0 : is_nan (currentTime
                         (video (dom (exec (fst Scenarios.first_call)
                                        Scenarios.one_second_of_frames))))
               = false) by reflexivity.
  assert (H1 : detectedFps (exec (fst Scenarios.first_call)
                              Scenarios.one_second_of_frames) = 24%float)
    by reflexivity.
  assert (H2 : currentTime
                 (video (dom (exec (fst Scenarios.first_call)
                                Scenarios.one_second_of_frames)))
               = 2.5%float) by reflexivity.
  cbv zeta. split; [|split].
  - split; [exact H0 | exact (proj2 (proj2 (T1 _)) H0)].
  - split; [exact H1|]. split; [exact H2|].
    destruct (T4 3100 _ H1 H2) as [s [E [_ [_ F]]]].
    exists s. now split.
  - split; [reflexivity|].
    exact (proj1 (proj2 (T3 (Scenarios.event Pause 3200 2.5 false) _))
             eq_refl).
Defined.

(** *** Autoplay and loop *)

Lemma applyFlags_flags d p :
  autoplay (video (applyFlags d p)) = autoplay (video p) || data_autoplay d
  /\ loop (video (applyFlags d p)) = loop (video p) || data_loop d.
Proof.
  unfold applyFlags.
  destruct (negb (data_video_src d =? "")%string
            && negb (src (video p) =? data_video_src d)%string),
    (negb (data_height d =? 0)), (data_autoplay d), (data_loop d);
    fields; rewrite ?orb_true_r, ?orb_false_r; split; reflexivity.
Qed.

Lemma applyFlags_idempotent d p :
  applyFlags d (applyFlags d p) = applyFlags d p.
Proof.
  destruct d as [vs sk h a l]. destruct p as [[s au lo ct du pa en rs mh] ch inf].
  unfold applyFlags. cbn [data_video_src data_height data_autoplay data_loop].
  repeat (fields;
          match goal with
          | |- context [if ?b then _ else _] => destruct b eqn:?
          end);
    fields; try reflexivity;
    repeat match goal with
           | H : _ && _ = true |- _ => apply andb_true_iff in H; destruct H
           | H : _ && _ = false |- _ => apply andb_false_iff in H; destruct H
           | H : negb _ = true |- _ => apply negb_true_iff in H
           | H : negb _ = false |- _ => apply negb_false_iff in H
           | H : (?x =? ?x)%string = false |- _ =>
               rewrite String.eqb_refl in H; discriminate
           | H : (_ =? _)%string = true |- _ => apply String.eqb_eq in H; subst
           end;
    try congruence; try reflexivity.
Qed.

Lemma component_flags supported d now page :
  let v := video (dom (fst (component supported (Some d) now page))) in
  autoplay v = autoplay (video (applyFlags d page))
  /\ loop v = loop (video (applyFlags d page)).
Proof.
  cbv zeta. destruct supported; open_handler; split; reflexivity.
Qed.

(** C9 (as the code has it).  A call turns a flag on when the host value is
    true and leaves it as it was when the host value is false: afterwards
    the flag is the old flag or-ed with the host value.  So on an element
    whose flag was off the flag equals the host value.  Applying the same
    configuration a second time changes nothing. *)
Theorem C9_flags_are_switched_on_only :
  forall d p,
    let p1 := applyFlags d p in
    autoplay (video p1) = autoplay (video p) || data_autoplay d
    /\ loop (video p1) = loop (video p) || data_loop d
    /\ (autoplay (video p) = false -> autoplay (video p1) = data_autoplay d)
    /\ (loop (video p) = false -> loop (video p1) = data_loop d)
    /\ applyFlags d p1 = p1
    /\ (forall supported now,
          let v := video (dom (fst (component supported (Some d) now p))) in
          autoplay v = autoplay (video p1) /\ loop v = loop (video p1)).
Proof.
  intros d p. cbv zeta. destruct (applyFlags_flags d p) as [Ha Hl].
  split; [exact Ha|]. split; [exact Hl|].
  split; [intros E; now rewrite Ha, E|].
  split; [intros E; now rewrite Hl, E|].
  split; [apply applyFlags_idempotent|].
  intros supported now. apply component_flags.
Qed.

Lemma C9_flags_witness :
  let d := Scenarios.request JNull true false in
  let p1 := applyFlags d Scenarios.loaded_page in
  autoplay (video Scenarios.loaded_page) = false
  /\ loop (video Scenarios.loaded_page) = false
  /\ autoplay (video p1) = data_autoplay d
  /\ loop (video p1) = data_loop d.
Proof.
  pose proof (C9_flags_are_switched_on_only
                (Scenarios.request JNull true false) Scenarios.loaded_page)
    as T.
  cbv zeta in T. destruct T as [_ [_ [Ta [Tl _]]]].
  cbv zeta. split; [reflexivity|]. split; [reflexivity|].
  split; [exact (Ta eq_refl) | exact (Tl eq_refl)].
Defined.

(** C9 as stated fails: on an element that already autoplays and loops, a
    call with both host values false leaves both flags on. *)
Lemma C9_counterexample :
  autoplay (video (applyFlags (Scenarios.request JNull false false)
                     Scenarios.looping_page))
  <> data_autoplay (Scenarios.request JNull false false)
  /\
  loop (video (applyFlags (Scenarios.request JNull false false)
                 Scenarios.looping_page))
  <> data_loop (Scenarios.request JNull false false).
Proof. split; vm_compute; discriminate. Qed.

(** *** Bounds *)




(** The counter after [frameCount++] is a count of at least one. *)
Lemma counter_incr x :
  counter_ok x ->
  exists n, 1 <= n <= 2 ^ 53 /\ (x + 1)%float = of_Z n.
Proof.
  intros [n [Hn ->]]. exists (Z.min (n + 1) (2 ^ 53)).
  split; [lia | now apply of_Z_incr].
Qed.

Lemma countFrame_rate_ok t now i :
  rate_ok i -> rate_ok (fst (countFrame t now i)).
Proof.
  intros [Hr Hc].
  destruct i as [p f c lu ls fc st sm sd rq tk].
  cbn [detectedFps frameCount] in Hr, Hc.
  assert (Hc0 : counter_ok 0%float) by (exists 0; split; [lia | reflexivity]).
  unfold rate_ok, countFrame. cbn [startTime].
  destruct st as [start|]; fields.
  - destruct (@counter_incr _ Hc) as [n [Hn Hx]]. rewrite Hx.
    assert (Hn' : counter_ok (of_Z n)) by (exists n; split; [lia | reflexivity]).
    destruct (SAMPLE_DURATION_MS <=? t - start)%float eqn:E.
    + rewrite andThen_eq. unfold emit, updateState. fields.
      cbn [negb andb]. fields.
      split; [now apply rate_finite_nonneg | exact Hn'].
    + fields. split; assumption.
  - destruct (@counter_incr _ Hc0) as [n [Hn Hx]]. rewrite Hx.
    assert (Hn' : counter_ok (of_Z n)) by (exists n; split; [lia | reflexivity]).
    destruct (SAMPLE_DURATION_MS <=? t - t)%float eqn:E.
    + rewrite andThen_eq. unfold emit, updateState. fields.
      cbn [negb andb]. fields.
      split; [now apply rate_finite_nonneg | exact Hn'].
    + fields. split; assumption.
Qed.

Lemma dispatch_rate_ok e i : rate_ok i -> rate_ok (fst (dispatch e i)).
Proof.
  intros H. destruct e as [k now r].
  destruct k as [ | | | | | | |t];
    try (unfold rate_ok in *; open_handler; fields; exact H).
  unfold dispatch, listeners. cbn [kind date_now element].
  rewrite andThen_eq. unfold modify. fields.
  destruct (countFrameRequested i); [|exact H].
  apply countFrame_rate_ok. exact H.
Qed.

Lemma exec_rate_ok evs : forall i, rate_ok i -> rate_ok (exec i evs).
Proof.
  unfold exec. induction evs as [|e rest IH]; intros i H; simpl; [exact H|].
  pose proof (@dispatch_rate_ok e _ H) as H1.
  destruct (dispatch e i) as [i1 o1]. simpl in H1.
  specialize (IH i1 H1). now destruct (run i1 rest).
Qed.

Lemma component_rate_ok supported data now page :
  rate_ok (fst (component supported data now page)).
Proof.
  assert (H30 : finite_nonneg 30%float) by (split; reflexivity).
  assert (Hc0 : counter_ok 0%float) by (exists 0; split; [lia | reflexivity]).
  unfold rate_ok.
  destruct data as [d|]; destruct supported; open_handler; fields;
    split; assumption.
Qed.




End TrackerProofs.

(** ** Proofs about the host side *)

Module HostProofs.
Import JS Host.
Local Open Scope string_scope.

Section Environment.

Variable b64encode : list Byte.byte -> string.
Variable guess_type : string -> option string.
Variable fs : string -> option Entry.
Variable Session : Type.
Variable _component : Player.Data -> option string -> Session -> PyVal * Session.

Lemma prepare_str_not_found p msg :
  prepare_str b64encode guess_type fs p = Raise (FileNotFoundError msg) ->
  is_url p = false /\ fs p = None.
Proof.
  unfold prepare_str. destruct (is_url p); [discriminate|].
  destruct (fs p) as [[content|]|]; try discriminate. auto.
Qed.

(** C8.  A [str] or [Path] source that is no URL and names nothing on disk
    makes [_prepare_video_source] raise [FileNotFoundError]; [video_player]
    then raises it too and hands the session back as it found it, whatever
    the component would have done.  No other source raises that error: a
    URL passes through and an existing file is read.  When preparation
    returns, the component is rendered once, with the prepared source. *)
Theorem C8_missing_file_raises_before_component :
  (forall source p key seek_to height autoplay loop s,
     source = Str p \/ source = PathObj p ->
     is_url p = false ->
     fs p = None ->
     _prepare_video_source b64encode guess_type fs source
     = Raise (FileNotFoundError ("Video file not found: " ++ p))
     /\ video_player b64encode guess_type fs _component
          source key seek_to height autoplay loop s
        = (Raise (FileNotFoundError ("Video file not found: " ++ p)), s))
  /\
  (forall source msg,
     _prepare_video_source b64encode guess_type fs source
     = Raise (FileNotFoundError msg) ->
     exists p, (source = Str p \/ source = PathObj p)
               /\ is_url p = false /\ fs p = None)
  /\
  (forall source video_src key seek_to height autoplay loop s,
     _prepare_video_source b64encode guess_type fs source = Return video_src ->
     let data :=
       Player.mkData video_src
         (match seek_to with Some t => JNum t | None => JNull end)
         height autoplay loop in
     video_player b64encode guess_type fs _component
       source key seek_to height autoplay loop s
     = (Return (to_VideoState (fst (_component data key s))),
        snd (_component data key s))).
Proof.
  split; [|split].
  - intros source p key seek_to height autoplay loop s Hsrc Hurl Hfs.
    assert (E : _prepare_video_source b64encode guess_type fs source
                = Raise (FileNotFoundError ("Video file not found: " ++ p))).
    { destruct Hsrc as [-> | ->]; cbn [_prepare_video_source];
        unfold prepare_str; now rewrite Hurl, Hfs. }
    split; [exact E|]. unfold video_player. now rewrite E.
  - intros source msg H. destruct source as [content|p|p|ty];
      cbn [_prepare_video_source] in H; try discriminate;
      exists p; (split; [auto | now apply prepare_str_not_found with msg]).
  - intros source video_src key seek_to height autoplay loop s H. cbv zeta.
    unfold video_player. rewrite H.
    now destruct (_component _ key s).
Qed.

End Environment.

Lemma C8_missing_file_witness :
  Scenarios.disk "missing.mp4" = None
  /\ is_url "missing.mp4" = false
  /\ video_player Scenarios.no_base64 Scenarios.no_mime Scenarios.disk
       Scenarios.render (Str "missing.mp4") (Some "demo_video") None 400
       false false []
     = (Raise (FileNotFoundError "Video file not found: missing.mp4"), [])
  /\ (_prepare_video_source Scenarios.no_base64 Scenarios.no_mime
        Scenarios.disk (Str "https://example.org/clip.mp4")
      = Return "https://example.org/clip.mp4"
      /\ video_player Scenarios.no_base64 Scenarios.no_mime Scenarios.disk
           Scenarios.render (Str "https://example.org/clip.mp4")
           (Some "demo_video") (Some 10%float) 400 false false []
         = (Return VideoState_default,
            [Player.mkData "https://example.org/clip.mp4" (JNum 10) 400
               false false])).
Proof.
  destruct (@C8_missing_file_raises_before_component Scenarios.no_base64
              Scenarios.no_mime Scenarios.disk (list Player.Data)
              Scenarios.render) as [T1 [_ T3]].
  split; [reflexivity|]. split; [reflexivity|]. split.
  - exact (proj2 (T1 (Str "missing.mp4") "missing.mp4" (Some "demo_video")
                     None 400 false false [] (or_introl eq_refl)
                     eq_refl eq_refl)).
  - split; [reflexivity|].
    exact (T3 (Str "https://example.org/clip.mp4")
              "https://example.org/clip.mp4" (Some "demo_video") (Some 10%float)
              400 false false [] eq_refl).
Defined.

(** A file whose extension has no MIME mapping is embedded as video/mp4. *)
Example unknown_extension_is_mp4 :
  _prepare_video_source Scenarios.no_base64 Scenarios.no_mime Scenarios.disk
    (Str "clip.mp4")
  = Return "data:video/mp4;base64,".
Proof. reflexivity. Qed.

End HostProofs.

(** ** Further properties of the tracker *)

Module TrackerExtras.
Import JS Player Spec FloatFacts TrackerProofs.
Local Open Scope handler_scope.

(** *** What is emitted, and when *)

Lemma component_initial_update supported data now page :
  let c := component supported data now page in
  snapshots (snd c) = [state_of (fst c)]
  /\ last_snapshot (snd c) = Some (state_of (fst c))
  /\ lastUpdateTime (fst c) = now
  /\ info_textContent (dom (fst c)) = Some (overlay_of (state_of (fst c))).
Proof.
  cbv zeta.
  destruct data as [d|]; destruct supported; open_handler;
    cbn [snapshots last_snapshot]; try discriminate; repeat split.
Qed.

(** Every call of the exported function ends with exactly one snapshot, built
    from the element as the configuration block left it; it records the
    clock and writes the overlay for that snapshot. *)
Theorem call_emits_one_initial_snapshot :
  forall supported data now page,
    let c := component supported data now page in
    snapshots (snd c) = [state_of (fst c)]
    /\ last_snapshot (snd c) = Some (state_of (fst c))
    /\ lastUpdateTime (fst c) = now
    /\ info_textContent (dom (fst c)) = Some (overlay_of (state_of (fst c))).
Proof. exact component_initial_update. Qed.

(** A metadata-loaded, play, pause, seeked or ended event emits exactly one
    snapshot, however recently the last one was emitted, and records its
    clock. *)
Theorem forced_event_emits_one_snapshot :
  forall e i,
    forced_kind (kind e) = true ->
    snapshots (snd (dispatch e i)) = [state_of (fst (dispatch e i))]
    /\ lastUpdateTime (fst (dispatch e i)) = date_now e.
Proof.
  intros [k now r] i. destruct k; cbn [kind forced_kind]; try discriminate;
    intros _; open_handler; cbn [snapshots negb andb] in *;
    try discriminate; split; reflexivity.
Qed.

Lemma forced_event_witness :
  forced_kind (kind (Scenarios.event Pause 710 3 false)) = true
  /\ lastUpdateTime (fst Scenarios.first_call) = 700
  /\ List.length
       (snapshots (snd (dispatch (Scenarios.event Pause 710 3 false)
                          (fst Scenarios.first_call)))) = 1%nat.
Proof.
  split; [reflexivity|]. split; [reflexivity|].
  rewrite (proj1 (forced_event_emits_one_snapshot
                    (Scenarios.event Pause 710 3 false)
                    (fst Scenarios.first_call) eq_refl)).
  reflexivity.
Defined.

Lemma or_zero_not_nan x : is_nan (or_zero x) = false.
Proof.
  unfold or_zero. destruct (falsy x) eqn:F; [reflexivity|].
  unfold falsy in F. now apply orb_false_iff in F.
Qed.

(** Whatever an event emits is the state of the instance once its listeners
    have run: the duration is the reported one with NaN (and zero) replaced
    by 0, so never NaN; the position is never NaN either; and [is_playing]
    is what the event's readings show. *)
Theorem event_snapshot_mirrors_readings :
  forall e i,
    Forall (fun s =>
              s = state_of (fst (dispatch e i))
              /\ state_duration s = or_zero (now_duration (element e))
              /\ is_nan (state_duration s) = false
              /\ is_nan (current_time s) = false
              /\ is_playing s = shown_playing e)
           (snapshots (snd (dispatch e i))).
Proof.
  intros [k now r] i. unfold shown_playing. cbn [element].
  pose proof or_zero_not_nan as Hn.
  destruct k; open_handler; cbn [snapshots];
    repeat constructor; unfold state_of; fields; auto.
Qed.

Lemma exec_cons e rest i :
  exec i (e :: rest) = exec (fst (dispatch e i)) rest.
Proof.
  unfold exec. simpl. destruct (dispatch e i) as [i1 o1]. simpl.
  now destruct (run i1 rest).
Qed.

Lemma outputs_cons e rest i :
  outputs i (e :: rest)
  = snd (dispatch e i) ++ outputs (fst (dispatch e i)) rest.
Proof.
  unfold outputs. simpl. destruct (dispatch e i) as [i1 o1]. simpl.
  now destruct (run i1 rest).
Qed.

(** *** The continuous-update driver *)

Lemma dispatch_tick_count e i :
  tickRequested (fst (dispatch e i)) =
  match kind e with
  | Play => S (tickRequested i)
  | AnimationFrame =>
      if shown_playing e then tickRequested i else Nat.pred (tickRequested i)
  | _ => tickRequested i
  end.
Proof.
  destruct e as [k now r]. unfold shown_playing. cbn [kind element].
  destruct i as [p f c lu ls n st sm sd rq tk].
  destruct k; open_handler; fields; try reflexivity;
    repeat match goal with
           | H : ?b = _ |- context [if ?b then _ else _] => rewrite H
           end;
    try reflexivity; try discriminate.
  all: destruct (negb (now_paused r) && negb (now_ended r)); try discriminate;
    reflexivity.
Qed.

(** Only a play event adds an update loop; a loop stays alive across an
    animation frame exactly when the element is shown playing at that frame.
    Hence a run never has more loops than it started with plus its play
    events; frames on an element that is not playing remove one loop each,
    silently, until none is left; frames on a playing element keep them
    all. *)
Theorem update_loop_rearms_only_while_playing :
  (forall i evs,
     (tickRequested (exec i evs)
      <= tickRequested i + List.length (filter is_Play evs))%nat)
  /\
  (forall i evs,
     Forall (fun e => is_AnimationFrame e = true /\ shown_playing e = false)
            evs ->
     tickRequested (exec i evs) = (tickRequested i - List.length evs)%nat
     /\ outputs i evs = [])
  /\
  (forall i evs,
     Forall (fun e => is_AnimationFrame e = true /\ shown_playing e = true)
            evs ->
     tickRequested (exec i evs) = tickRequested i).
Proof.
  split; [|split].
  - intros i evs. revert i.
    induction evs as [|e rest IH]; intros i; [unfold exec; simpl; lia|].
    rewrite exec_cons. specialize (IH (fst (dispatch e i))).
    rewrite dispatch_tick_count in IH. cbn [filter]. unfold is_Play at 1.
    destruct (kind e); try (destruct (shown_playing e));
      cbn [List.length] in *; lia.
  - intros i evs H. revert i.
    induction H as [|e rest [Hk Hp] _ IH]; intros i.
    + unfold exec, outputs. simpl. split; [lia | reflexivity].
    + rewrite exec_cons, outputs_cons.
      destruct (IH (fst (dispatch e i))) as [IH1 IH2].
      rewrite IH1, IH2, dispatch_tick_count. unfold is_AnimationFrame in Hk.
      destruct (kind e) eqn:K; try discriminate. rewrite Hp.
      split; [cbn [List.length]; lia|].
      rewrite app_nil_r. destruct e as [k now r]. cbn [kind] in K. subst k.
      unfold shown_playing in Hp. cbn [element] in Hp.
      open_handler; try reflexivity; fields; congruence.
  - intros i evs H. revert i.
    induction H as [|e rest [Hk Hp] _ IH]; intros i; [reflexivity|].
    rewrite exec_cons, IH, dispatch_tick_count.
    unfold is_AnimationFrame in Hk.
    destruct (kind e); try discriminate. now rewrite Hp.
Qed.

Lemma update_loop_witness :
  (Forall (fun e => is_AnimationFrame e = true /\ shown_playing e = false)
          Scenarios.frames_while_paused
   /\ tickRequested (exec (fst Scenarios.first_call) Scenarios.two_plays)
      = 2%nat
   /\ tickRequested
        (exec (exec (fst Scenarios.first_call) Scenarios.two_plays)
           Scenarios.frames_while_paused) = 0%nat)
  /\
  (Forall (fun e => is_AnimationFrame e = true /\ shown_playing e = true)
          Scenarios.frames_while_playing
   /\ tickRequested
        (exec (exec (fst Scenarios.first_call) Scenarios.two_plays)
           Scenarios.frames_while_playing) = 2%nat).
Proof.
  destruct update_loop_rearms_only_while_playing as [_ [T2 T3]].
  assert (H2 : Forall (fun e => is_AnimationFrame e = true
                                /\ shown_playing e = false)
                 Scenarios.frames_while_paused)
    by (repeat constructor).
  assert (H3 : Forall (fun e => is_AnimationFrame e = true
                                /\ shown_playing e = true)
                 Scenarios.frames_while_playing)
    by (repeat constructor).
  split.
  - split; [exact H2|]. split; [reflexivity|].
    exact (proj1 (T2 (exec (fst Scenarios.first_call) Scenarios.two_plays)
                     _ H2)).
  - split; [exact H3|].
    exact (T3 (exec (fst Scenarios.first_call) Scenarios.two_plays) _ H3).
Defined.

(** *** The overlay *)

Lemma last_snapshot_app a b :
  last_snapshot (a ++ b) =
  match last_snapshot b with
  | Some s => Some s
  | None => last_snapshot a
  end.
Proof.
  induction a as [|o a IH]; simpl.
  - now destruct (last_snapshot b).
  - rewrite IH. destruct (last_snapshot b); [reflexivity|].
    reflexivity.
Qed.

Lemma dispatch_overlay e i :
  info_textContent (dom (fst (dispatch e i))) =
  match last_snapshot (snd (dispatch e i)) with
  | Some s => Some (overlay_of s)
  | None => info_textContent (dom i)
  end.
Proof.
  assert (H : (last_snapshot (snd (dispatch e i)) = None
               /\ info_textContent (dom (fst (dispatch e i)))
                  = info_textContent (dom i))
              \/ (exists s, last_snapshot (snd (dispatch e i)) = Some s
                            /\ info_textContent (dom (fst (dispatch e i)))
                               = Some (overlay_of s))).
  { destruct e as [k now r].
    destruct k; open_handler; cbn [last_snapshot];
      first [ left; split; reflexivity
            | right; eexists; split; reflexivity ]. }
  destruct H as [[H1 H2]|[s [H1 H2]]]; now rewrite H1, H2.
Qed.

Lemma run_overlay evs : forall i,
  info_textContent (dom (exec i evs)) =
  match last_snapshot (outputs i evs) with
  | Some s => Some (overlay_of s)
  | None => info_textContent (dom i)
  end.
Proof.
  induction evs as [|e rest IH]; intros i; [reflexivity|].
  rewrite exec_cons, outputs_cons, last_snapshot_app, IH, dispatch_overlay.
  now destruct (last_snapshot (outputs (fst (dispatch e i)) rest)).
Qed.

(** After a call and any run of events the overlay shows the snapshot that
    was emitted last: its time, its frame number and its rate. *)
Theorem overlay_shows_last_snapshot :
  forall supported data now page evs,
    let c := component supported data now page in
    exists s,
      last_snapshot (snd c ++ outputs (fst c) evs) = Some s
      /\ info_textContent (dom (exec (fst c) evs)) = Some (overlay_of s).
Proof.
  intros supported data now page evs. cbv zeta.
  destruct (component_initial_update supported data now page)
    as [_ [Hl [_ Hi]]].
  rewrite last_snapshot_app, run_overlay, Hl, Hi.
  destruct (last_snapshot (outputs (fst (component supported data now page))
                             evs)) as [s|]; eexists; split; reflexivity.
Qed.

(** *** Frame numbers *)




(** *** The detected rate *)

Lemma Forall_on_snapshot P os :
  Forall P (snapshots os) -> Forall (on_snapshot P) os.
Proof.
  induction os as [|o os IH]; intros H; [constructor|].
  destruct o; cbn [snapshots] in H.
  - apply Forall_cons_iff in H. destruct H as [H1 H2].
    constructor; [exact H1 | now apply IH].
  - constructor; [exact I | now apply IH].
  - constructor; [exact I | now apply IH].
Qed.

Lemma dispatch_rate_triple e :
  triple rate_ok (dispatch e) rate_ok
    (on_snapshot (fun s => finite_nonneg (fps s))).
Proof.
  intros i H. pose proof (@dispatch_rate_ok e i H) as H1.
  split; [exact H1|]. apply Forall_on_snapshot.
  eapply Forall_impl; [|apply dispatch_emits_state_of].
  intros s ->. cbn [state_of fps]. apply H1.
Qed.

(** Whatever the frame callbacks report as timestamps (gaps, repeats,
    values that go back, infinities, NaN), the rate the tracker holds is
    always a finite Number that is not negative, so never NaN or Infinity:
    the fallback 30 or the result of [Math.round] on a quotient whose
    divisor is at least one.  Every snapshot of the call and of every later
    event carries such a rate.  The frame counter is always a count between
    [0] and [2^53]. *)
Theorem detected_rate_stays_finite :
  forall supported data now page evs,
    let c := component supported data now page in
    finite_nonneg (detectedFps (exec (fst c) evs))
    /\ is_nan (detectedFps (exec (fst c) evs)) = false
    /\ counter_ok (frameCount (exec (fst c) evs))
    /\ Forall (fun s => finite_nonneg (fps s) /\ is_nan (fps s) = false)
         (snapshots (snd c ++ outputs (fst c) evs)).
Proof.
  intros supported data now page evs. cbv zeta.
  pose proof (component_rate_ok supported data now page) as H0.
  destruct (@exec_rate_ok evs _ H0) as [H1 H2].
  split; [exact H1|]. split; [apply nonneg_not_nan, H1|].
  split; [exact H2|].
  rewrite snapshots_app. apply Forall_app. split.
  - rewrite component_emits_state_of. constructor; [|constructor].
    cbn [state_of fps].
    split; [apply H0 | apply nonneg_not_nan, H0].
  - apply on_snapshot_Forall.
    assert (T : triple rate_ok (fun i => run i evs) rate_ok
                  (on_snapshot (fun s => finite_nonneg (fps s)))).
    { apply (run_triple (ok := fun _ => True)).
      - intros e _. apply dispatch_rate_triple.
      - apply Forall_forall. intros; exact I. }
    destruct (T _ H0) as [_ T2].
    eapply Forall_impl; [|exact T2].
    intros o. destruct o; cbn [on_snapshot]; auto.
    intros Hf. split; [exact Hf | apply nonneg_not_nan, Hf].
Qed.

(** *** The sampler over a whole run *)

Lemma other_event_keeps_sampler e i :
  is_VideoFrame e = false ->
  countFrameRequested i = true ->
  let i1 := fst (dispatch e i) in
  countFrameRequested i1 = true
  /\ frameCount i1 = frameCount i
  /\ startTime i1 = startTime i
  /\ fpsDetectionComplete i1 = fpsDetectionComplete i
  /\ detectedFps i1 = detectedFps i.
Proof.
  intros Hk Hreq. cbv zeta. destruct i as [p f c lu ls n st sm sd rq tk].
  cbn in Hreq. subst rq. destruct e as [k now r].
  unfold is_VideoFrame in Hk. cbn [kind] in Hk.
  destruct k; try discriminate; open_handler; fields; repeat split.
Qed.

(** The first callback of a session never ends it: [now - now] is [0], or
    NaN when [now] is not finite, and neither reaches 1000. *)
Lemma first_frame_continues t :
  (SAMPLE_DURATION_MS <=? t - t)%float = false.
Proof.
  unfold SAMPLE_DURATION_MS.
  rewrite FloatAxioms.leb_spec, FloatAxioms.sub_spec, Prim2SF_1000.
  unfold SF64sub.
  destruct (Prim2SF t) as [s|s| |s m e]; cbn [SFsub];
    try (destruct s; reflexivity); try reflexivity.
  rewrite Z.sub_diag. reflexivity.
Qed.

Lemma frame_within_window i t wall rd :
  countFrameRequested i = true ->
  match startTime i with
  | Some start => (SAMPLE_DURATION_MS <=? t - start)%float = false
  | None => True
  end ->
  let i1 := fst (dispatch (mkEvent (VideoFrame t) wall rd) i) in
  countFrameRequested i1 = true
  /\ frameCount i1
     = match startTime i with
       | Some _ => (frameCount i + 1)%float
       | None => 1%float
       end
  /\ startTime i1
     = match startTime i with Some start => Some start | None => Some t end
  /\ fpsDetectionComplete i1 = fpsDetectionComplete i
  /\ detectedFps i1 = detectedFps i.
Proof.
  intros Hreq Hw. cbv zeta. destruct i as [p f c lu ls n st sm sd rq tk].
  cbn in Hreq. subst rq. cbn [startTime] in *.
  assert (E : (SAMPLE_DURATION_MS
               <=? t - match st with Some s => s | None => t end)%float
              = false).
  { destruct st as [start|]; [exact Hw | apply first_frame_continues]. }
  unfold dispatch, listeners. cbn [kind date_now element].
  rewrite andThen_eq. unfold modify, countFrame. fields.
  destruct st as [start|]; fields; rewrite E; fields; repeat split.
Qed.

Lemma min_incr n k :
  0 <= n -> 0 <= k ->
  Z.min (Z.min (n + k) (2 ^ 53) + 1) (2 ^ 53) = Z.min (n + (k + 1)) (2 ^ 53).
Proof. lia. Qed.

Lemma sampling_in_progress evs : forall i t0 n,
  countFrameRequested i = true ->
  startTime i = Some t0 ->
  0 <= n <= 2 ^ 53 ->
  frameCount i = of_Z n ->
  Forall (fun t => (SAMPLE_DURATION_MS <=? t - t0)%float = false)
         (frame_times evs) ->
  let i1 := exec i evs in
  countFrameRequested i1 = true
  /\ frameCount i1
     = of_Z (Z.min (n + Z.of_nat (List.length (frame_times evs))) (2 ^ 53))
  /\ startTime i1 = Some t0
  /\ fpsDetectionComplete i1 = fpsDetectionComplete i
  /\ detectedFps i1 = detectedFps i.
Proof.
  induction evs as [|e rest IH]; intros i t0 n Hreq Hs Hn Hc Hw; cbv zeta.
  - unfold exec. simpl. repeat split; auto.
    rewrite Z.add_0_r, Z.min_l by lia. exact Hc.
  - rewrite exec_cons. destruct e as [k now r].
    destruct k as [ | | | | | | |t]; cbn [frame_times kind] in *;
      try (match goal with
           | |- context [dispatch ?ev i] =>
               destruct (@other_event_keeps_sampler ev i eq_refl Hreq)
                 as [K1 [K2 [K3 [K4 K5]]]]
           end;
           rewrite Hs in K3; rewrite Hc in K2;
           destruct (IH _ t0 n K1 K3 Hn K2 Hw) as [R1 [R2 [R3 [R4 R5]]]];
           repeat split; congruence).
    apply Forall_cons_iff in Hw. destruct Hw as [Hw1 Hw2].
    pose proof (@frame_within_window i t now r Hreq) as F.
    rewrite Hs in F. destruct (F Hw1) as [K1 [K2 [K3 [K4 K5]]]].
    rewrite Hc, of_Z_incr in K2 by exact Hn.
    destruct (IH _ t0 (Z.min (n + 1) (2 ^ 53)) K1 K3 ltac:(lia) K2 Hw2)
      as [R1 [R2 [R3 [R4 R5]]]].
    repeat split; try congruence.
    rewrite R2. f_equal. cbn [List.length]. lia.
Qed.

(** Whatever other events come between the frame callbacks (pause, a second
    play, time updates, animation frames): from an armed sampler, the first
    callback fixes the start of the window, every callback that does not
    find 1000 ms elapsed since then is counted, and nothing else touches the
    count, the start or the rate.  The callback that then finds 1000 ms or
    more elapsed sets the rate from the callbacks counted, itself included.
    The count is a Number: it stops growing at [2^53]. *)
Theorem sampler_counts_frames_between_other_events :
  forall evs i t0 mid,
    countFrameRequested i = true ->
    startTime i = None ->
    frame_times evs = t0 :: mid ->
    Forall (fun t => (SAMPLE_DURATION_MS <=? t - t0)%float = false) mid ->
    let i1 := exec i evs in
    countFrameRequested i1 = true
    /\ startTime i1 = Some t0
    /\ frameCount i1
       = of_Z (Z.min (1 + Z.of_nat (List.length mid)) (2 ^ 53))
    /\ fpsDetectionComplete i1 = fpsDetectionComplete i
    /\ detectedFps i1 = detectedFps i
    /\ forall tn wall rd,
         (SAMPLE_DURATION_MS <=? tn - t0)%float = true ->
         detectedFps (fst (dispatch (mkEvent (VideoFrame tn) wall rd) i1))
         = Math_round (of_Z (Z.min (2 + Z.of_nat (List.length mid)) (2 ^ 53))
                       / ((tn - t0) / 1000))%float.
Proof.
  induction evs as [|e rest IH]; intros i t0 mid Hreq Hs Hf Hw; cbv zeta.
  - discriminate Hf.
  - rewrite exec_cons. destruct e as [k now r].
    destruct k as [ | | | | | | |t]; cbn [frame_times kind] in Hf;
      try (match goal with
           | |- context [dispatch ?ev i] =>
               destruct (@other_event_keeps_sampler ev i eq_refl Hreq)
                 as [K1 [K2 [K3 [K4 K5]]]]
           end;
           rewrite Hs in K3;
           destruct (IH _ t0 mid K1 K3 Hf Hw) as [R1 [R2 [R3 [R4 [R5 R6]]]]];
           repeat split; solve [congruence | exact R6]).
    injection Hf as -> Hmid.
    pose proof (@frame_within_window i t0 now r Hreq) as F.
    rewrite Hs in F. destruct (F I) as [K1 [K2 [K3 [K4 K5]]]].
    rewrite <- Hmid in Hw.
    assert (H1 : 0 <= 1 <= 2 ^ 53) by (split; [lia | now apply Z.lt_le_incl]).
    destruct (@sampling_in_progress rest _ t0 1 K1 K3 H1 K2 Hw)
      as [R1 [R2 [R3 [R4 R5]]]].
    rewrite Hmid in R2.
    repeat split; try congruence.
    intros tn wall rd Hle.
    destruct (@convergence_step _ tn wall rd t0 R1 R3 Hle) as [C1 _].
    rewrite C1, R2, of_Z_incr by lia. do 3 f_equal. lia.
Qed.

Lemma sampler_counts_witness :
  countFrameRequested Scenarios.armed_instance = true
  /\ startTime Scenarios.armed_instance = None
  /\ frame_times Scenarios.sampling_events
     = 100%float :: [500%float; 1000%float]
  /\ Forall (fun t => (SAMPLE_DURATION_MS <=? t - 100)%float = false)
       [500%float; 1000%float]
  /\ frameCount (exec Scenarios.armed_instance Scenarios.sampling_events)
     = 3%float
  /\ (SAMPLE_DURATION_MS <=? 1200 - 100)%float = true
  /\ detectedFps
       (fst (dispatch (Scenarios.event (VideoFrame 1200) 3101 1 true)
               (exec Scenarios.armed_instance Scenarios.sampling_events)))
     = 4%float.
Proof.
  assert (H1 : countFrameRequested Scenarios.armed_instance = true)
    by reflexivity.
  assert (H2 : startTime Scenarios.armed_instance = None) by reflexivity.
  assert (H3 : frame_times Scenarios.sampling_events
               = 100%float :: [500%float; 1000%float]) by reflexivity.
  assert (H4 : Forall
                 (fun t => (SAMPLE_DURATION_MS <=? t - 100)%float = false)
                 [500%float; 1000%float])
    by (repeat constructor).
  assert (H5 : (SAMPLE_DURATION_MS <=? 1200 - 100)%float = true)
    by reflexivity.
  destruct (@sampler_counts_frames_between_other_events
              Scenarios.sampling_events Scenarios.armed_instance
              100%float [500%float; 1000%float] H1 H2 H3 H4)
    as [_ [_ [T3 [_ [_ T6]]]]].
  split; [exact H1|]. split; [exact H2|]. split; [exact H3|].
  split; [exact H4|]. split; [exact T3|]. split; [exact H5|].
  exact (T6 1200%float 3101 (Scenarios.at_time 1 true) H5).
Defined.

(** *** Seeks and configuration *)





End TrackerExtras.

(** ** Further properties of the host side *)

Module HostExtras.
Import JS Host.
Local Open Scope string_scope.

Section Environment.

Variable b64encode : list Byte.byte -> string.
Variable guess_type : string -> option string.
Variable fs : string -> option Entry.
Variable Session : Type.
Variable _component : Player.Data -> option string -> Session -> PyVal * Session.






End Environment.






End HostExtras.
